(** * da-cloud-rack-cfpages: the action dispatcher of [functions/api.ts]

    A shallow embedding of the Cloudflare Pages function in
    [functions/api.ts]: the values a JSON body is parsed to, the string
    primitives the handler calls, the statements it hands to the store, and
    the handler itself ([handleApiRequest], [handleApi]) written as a state
    and exception monad over an abstract store.

    The store (D1) is an external collaborator.  It is a section variable:
    a function that, given a call ([run], [all] or [batch] of prepared
    statements) and the current store, either returns a value or throws.
    Every call the handler issues is recorded in the world, so that "no
    statement is executed" is a statement about that record. *)

From Stdlib Require Import String Ascii List ZArith QArith Lia Bool.
From Stdlib Require Import DecimalString.
Import ListNotations.
Open Scope string_scope.
Set Warnings "-register-all".

(* ================================================================== *)
(** ** JavaScript values and the string primitives used by the handler *)
(* ================================================================== *)

Module JS.

(** Values reachable from [JSON.parse], plus [undefined] (the value of an
    absent property).  A number is the rational it denotes; only finite
    numbers are modelled.  An object is its list of own properties in
    [Object.keys] order.  A string is a sequence of code units below 256. *)
Inductive Value : Type :=
| VUndefined
| VNull
| VBool (b : bool)
| VNum (q : Q)
| VStr (s : string)
| VArr (l : list Value)
| VObj (kvs : list (string * Value)).

(** What a JavaScript evaluation throws.  [err.message] is the carried text. *)
Inductive Exn : Type :=
| TypeError (message : string)
| ReferenceError (message : string)
| StoreError (message : string).

Definition err_message (e : Exn) : string :=
  match e with TypeError m => m | ReferenceError m => m | StoreError m => m end.

Inductive Completion (A : Type) : Type :=
| Normal (a : A)
| Throw (e : Exn).
Arguments Normal {A} a.
Arguments Throw {A} e.

(** *** Numbers *)

Definition Number_isInteger (q : Q) : bool :=
  (Z.pos (Qden (Qred q)) =? 1)%Z.

(** The integer a number denotes, meaningful when [Number_isInteger]. *)
Definition int_of (q : Q) : Z := Qnum (Qred q).

Definition num_of_Z (z : Z) : Value := VNum (inject_Z z).
Definition num_of_nat (n : nat) : Value := num_of_Z (Z.of_nat n).

Definition dec (z : Z) : string := NilZero.string_of_int (Z.to_int z).

(** *** Truthiness and nullish tests *)

Definition truthy (v : Value) : bool :=
  match v with
  | VUndefined | VNull => false
  | VBool b => b
  | VNum q => negb (Qeq_bool q 0)
  | VStr s => negb (s =? "")
  | VArr _ | VObj _ => true
  end.

(** [v != null] *)
Definition not_nullish (v : Value) : bool :=
  match v with VUndefined | VNull => false | _ => true end.

(** [typeof v === "object" && v !== null] *)
Definition is_object (v : Value) : bool :=
  match v with VArr _ | VObj _ => true | _ => false end.

(** [a || b] *)
Definition js_or (a b : Value) : Value := if truthy a then a else b.

(** [a ?? b] *)
Definition js_nullish (a b : Value) : Value := if not_nullish a then a else b.

(** [v === "lit"] *)
Definition is_str (v : Value) (lit : string) : bool :=
  match v with VStr s => s =? lit | _ => false end.

(** [v === 0] *)
Definition is_zero (v : Value) : bool :=
  match v with VNum q => Qeq_bool q 0 | _ => false end.

(** *** Strings *)

(** White space and line terminators among the code units below 256:
    TAB, LF, VT, FF, CR, SP and NBSP. *)
Definition isWs (c : ascii) : bool :=
  match N_of_ascii c with
  | 9%N | 10%N | 11%N | 12%N | 13%N | 32%N | 160%N => true
  | _ => false
  end.

Fixpoint trimStart (s : string) : string :=
  match s with
  | EmptyString => EmptyString
  | String c r => if isWs c then trimStart r else s
  end.

Fixpoint trimEnd (s : string) : string :=
  match s with
  | EmptyString => EmptyString
  | String c r =>
      match trimEnd r with
      | EmptyString => if isWs c then EmptyString else String c EmptyString
      | r' => String c r'
      end
  end.

Definition trim (s : string) : string := trimEnd (trimStart s).

(** Lower case of one code unit below 256: A-Z and the Latin-1 capitals
    (0xC0-0xDE except the multiplication sign 0xD7) move up by 32. *)
Definition lowerChar (c : ascii) : ascii :=
  let n := N_of_ascii c in
  if ((65 <=? n) && (n <=? 90))%N then ascii_of_N (n + 32)
  else if ((192 <=? n) && (n <=? 222) && negb (n =? 215))%N
       then ascii_of_N (n + 32)
  else c.

Fixpoint toLowerCase (s : string) : string :=
  match s with
  | EmptyString => EmptyString
  | String c r => String (lowerChar c) (toLowerCase r)
  end.

(** [s.startsWith(p)] *)
Definition startsWith (s p : string) : bool := prefix p s.

(** [s.includes(needle)] *)
Fixpoint includes (s needle : string) : bool :=
  if prefix needle s then true
  else match s with
       | EmptyString => false
       | String _ r => includes r needle
       end.

(** [s.split(sep)] for a one-character separator. *)
Fixpoint split (sep : ascii) (s : string) : list string :=
  match s with
  | EmptyString => [EmptyString]
  | String c r =>
      if Ascii.eqb c sep then EmptyString :: split sep r
      else match split sep r with
           | [] => [String c EmptyString]
           | h :: t => String c h :: t
           end
  end.

(** [xs.join(sep)] on strings. *)
Fixpoint join (sep : string) (xs : list string) : string :=
  match xs with
  | [] => ""
  | [x] => x
  | x :: rest => x ++ sep ++ join sep rest
  end.

(** [strs.includes(v)] for an array of string literals. *)
Definition str_mem (k : string) (strs : list string) : bool :=
  existsb (String.eqb k) strs.

Definition arr_includes (strs : list string) (v : Value) : bool :=
  match v with VStr s => str_mem s strs | _ => false end.

(** *** Property access *)

Fixpoint lookup (k : string) (kvs : list (string * Value)) : Value :=
  match kvs with
  | [] => VUndefined
  | (k', v) :: rest => if k' =? k then v else lookup k rest
  end.

(** [obj[k]] or [obj.k] for the property names the handler reads: none of
    them is an index or a name found on a prototype, so arrays, strings,
    numbers and booleans answer [undefined]. *)
Definition get_prop (v : Value) (k : string) : Completion Value :=
  match v with
  | VUndefined =>
      Throw (TypeError ("Cannot read properties of undefined (reading '" ++ k ++ "')"))
  | VNull =>
      Throw (TypeError ("Cannot read properties of null (reading '" ++ k ++ "')"))
  | VObj kvs => Normal (lookup k kvs)
  | _ => Normal VUndefined
  end.

(** [obj[k] = v] on an object that already has the property [k]. *)
Fixpoint update (k : string) (v : Value) (kvs : list (string * Value))
  : list (string * Value) :=
  match kvs with
  | [] => []
  | (k', v') :: rest =>
      if k' =? k then (k', v) :: rest else (k', v') :: update k v rest
  end.

Definition set_prop (o : Value) (k : string) (v : Value) : Value :=
  match o with VObj kvs => VObj (update k v kvs) | _ => o end.

Definition index_keys (n : nat) : list string :=
  map (fun i => dec (Z.of_nat i)) (seq 0 n).

(** [Object.keys(v)] *)
Definition Object_keys (v : Value) : Completion (list string) :=
  match v with
  | VUndefined | VNull =>
      Throw (TypeError "Cannot convert undefined or null to object")
  | VObj kvs => Normal (map fst kvs)
  | VArr l => Normal (index_keys (List.length l))
  | VStr s => Normal (index_keys (String.length s))
  | _ => Normal []
  end.

End JS.

(* ================================================================== *)
(** ** The metadata endpoint of [src/meta.ts]                          *)
(* ================================================================== *)

Module Meta.
Import JS.

Definition C_SERVICE : string := "da-cloud-cfd1-rack".
Definition C_VERSION : string := "0.0.1".
Definition G_INSTANCE : string := "default".

(** [onRequest({ env })]: the status and the object that is serialised;
    the argument is [env.INSTANCEID]. *)
Definition onRequest (INSTANCEID : Value) : Z * Value :=
  (200%Z,
   VObj [("service", VStr C_SERVICE);
         ("version", VStr C_VERSION);
         ("instance", js_or INSTANCEID (VStr G_INSTANCE))]).

End Meta.

(* ================================================================== *)
(** ** The store interface and the handler's effects                   *)
(* ================================================================== *)

Module Api.
Import JS.

(** A prepared statement: SQL text with the values bound to its [?]s.
    [db.prepare] and [stmt.bind] only build the statement; the store is
    consulted when the statement is run. *)
Record Stmt : Type := { sql : string; binds : list Value }.

Definition prepare (q : string) : Stmt := {| sql := q; binds := [] |}.
Definition bind (s : Stmt) (vs : list Value) : Stmt :=
  {| sql := sql s; binds := vs |}.

(** The three ways the handler executes statements. *)
Inductive DbCall : Type :=
| Run (s : Stmt)
| All (s : Stmt)
| Batch (ss : list Stmt).

(** ** Globals of [functions/api.ts] *)

Definition allowedColumns : list string :=
  ["id";"c1";"c2";"c3";"i1";"i2";"i3";"d1";"d2";"d3";"t1";"t2";"t3";"v1";"v2";"v3"].
Definition allowedQueryOptions : list string :=
  ["minId";"offset";"order";"orderby";"limit";"table_name"].
Definition FORBIDDEN_TABLES : list string :=
  ["sqlite_master";"sqlite_schema";"sqlite_temp_master";"sqlite_sequence"].
Definition DB_DA_SYSTEM_TABLENAME : string := "__DA_SYSTEM_CONFIG".
Definition C_SERVICE : string := "da-cloud-cfd1-rack".
Definition G_INSTANCE : string := "default".

(** ** Table helpers *)

(** [resolveTableName]: [None] is the [null] it returns.  A [table_name]
    that is neither nullish nor a string has no [trim] method, so the call
    throws. *)
Definition resolveTableName (payload : Value) : Completion (option string) :=
  match get_prop payload "table_name" with
  | Throw e => Throw e
  | Normal VUndefined | Normal VNull => Normal None
  | Normal (VStr s) =>
      if trim s =? "" then Normal None
      else
        let name := trim s in
        if str_mem name FORBIDDEN_TABLES then Normal None else Normal (Some name)
  | Normal _ => Throw (TypeError "payload.table_name?.trim is not a function")
  end.

(** ** Scripted stores

    A store that answers every call from a fixed script and counts the
    calls it served; used to run the handler on concrete requests. *)

Definition scripted (answer : DbCall -> Completion Value)
  (c : DbCall) (served : nat) : Completion Value * nat :=
  (answer c, S served).

(** Every statement succeeds: a write changes one row, a read finds no
    row, a batch returns one result per statement. *)
Definition answer_ok (c : DbCall) : Completion Value :=
  match c with
  | Run _ => Normal (VObj [("changes", num_of_Z 1)])
  | All _ => Normal (VObj [("results", VArr [])])
  | Batch ss => Normal (VArr (map (fun _ => VObj [("success", VBool true)]) ss))
  end.

(** Every write matches no row. *)
Definition answer_no_row (c : DbCall) : Completion Value :=
  match c with
  | Run _ => Normal (VObj [("changes", num_of_Z 0)])
  | _ => answer_ok c
  end.

(** The reply of Cloudflare D1, the store the function is deployed on: a
    statement's [run()] and [all()] resolve to [{ success, meta, results }],
    the number of rows written being [meta.changes]; the reply has no
    [changes] property of its own.  A batch resolves to one such reply per
    statement. *)
Definition d1_reply (changes : Z) : Value :=
  VObj [("success", VBool true);
        ("meta", VObj [("changes", num_of_Z changes);
                       ("last_row_id", num_of_Z 0);
                       ("rows_written", num_of_Z changes)]);
        ("results", VArr [])].

Definition answer_d1 (changes : Z) (c : DbCall) : Completion Value :=
  match c with
  | Batch ss => Normal (VArr (map (fun _ => d1_reply changes) ss))
  | _ => Normal (d1_reply changes)
  end.

(** Every call fails with the given message. *)
Definition answer_error (msg : string) (c : DbCall) : Completion Value :=
  Throw (StoreError msg).


Definition demo_stringify (v : Value) : string := "{}".
Definition demo_number (q : Q) : string := "0.5".

Section Handler.

(** The store and the builtins whose results the source does not fix. *)
Variable Store : Type.
Variable db_exec : DbCall -> Store -> Completion Value * Store.
(** [JSON.stringify] on one value. *)
Variable JSON_stringify : Value -> string.
(** How the engine prints a number that is not a safe integer: the shortest
    digits that read back as the same double. *)
Variable Number_toString_ext : Q -> string.

(** Up to 2^53 in magnitude every integer is a double and prints with all
    its digits; beyond, the printed digits are the engine's. *)
Definition Number_toString (q : Q) : string :=
  if Number_isInteger q && (Z.abs (int_of q) <=? 2 ^ 53)%Z
  then dec (int_of q)
  else Number_toString_ext q.

(** String conversion, as a template literal performs it. *)
Fixpoint ToString (v : Value) : string :=
  match v with
  | VUndefined => "undefined"
  | VNull => "null"
  | VBool true => "true"
  | VBool false => "false"
  | VNum q => Number_toString q
  | VStr s => s
  | VArr l =>
      join "," (map (fun x => match x with
                              | VUndefined | VNull => ""
                              | _ => ToString x
                              end) l)
  | VObj _ => "[object Object]"
  end.

(** Whether string conversion succeeds.  An object of a JSON body converts
    through [Object.prototype.toString] unless it has a [toString]
    property of its own, which cannot be a function; an array converts
    when its elements do. *)
Fixpoint convertible (v : Value) : bool :=
  match v with
  | VObj kvs => negb (existsb (fun kv => fst kv =? "toString") kvs)
  | VArr l => forallb convertible l
  | _ => true
  end.

(** [`${v}`] for a value of the request. *)
Definition interpolate (v : Value) : Completion string :=
  if convertible v then Normal (ToString v)
  else Throw (TypeError "Cannot convert object to primitive value").

(** [normalizeJsonColumns]: the object after the in-place update. *)
Definition normalizeColumn (k : string) (obj : Value) : Completion Value :=
  match get_prop obj k with
  | Throw e => Throw e
  | Normal v =>
      if is_object v then Normal (set_prop obj k (VStr (JSON_stringify v)))
      else Normal obj
  end.

Definition normalizeJsonColumns (obj : Value) : Completion Value :=
  match normalizeColumn "t1" obj with
  | Throw e => Throw e
  | Normal o1 =>
      match normalizeColumn "t2" o1 with
      | Throw e => Throw e
      | Normal o2 => normalizeColumn "t3" o2
      end
  end.

(** *** The world: store, the calls issued so far, the diagnostics logged *)

Record World : Type := {
  store : Store;
  calls : list DbCall;
  diagnostics : list string
}.

Definition M (A : Type) : Type := World -> Completion A * World.

Definition ret {A} (a : A) : M A := fun w => (Normal a, w).
Definition throw {A} (e : Exn) : M A := fun w => (Throw e, w).
Definition mbind {A B} (m : M A) (k : A -> M B) : M B :=
  fun w => match m w with
           | (Normal a, w') => k a w'
           | (Throw e, w') => (Throw e, w')
           end.
Definition lift {A} (c : Completion A) : M A := fun w => (c, w).
Definition try_catch {A} (m : M A) (handler : Exn -> M A) : M A :=
  fun w => match m w with
           | (Throw e, w') => handler e w'
           | r => r
           end.

Notation "x <- m ;; k" := (mbind m (fun x => k))
  (at level 61, m at next level, right associativity).
Notation "m ;;; k" := (mbind m (fun _ => k))
  (at level 61, right associativity).

(** [await db...run()], [...all()], [db.batch(...)] *)
Definition db_call (c : DbCall) : M Value :=
  fun w =>
    let (r, st') := db_exec c (store w) in
    (r, {| store := st'; calls := calls w ++ [c]; diagnostics := diagnostics w |}).

(** [errDelegate]: [console.error(msg)] and an empty deferred task. *)
Definition errDelegate (msg : string) : M unit :=
  fun w => (Normal tt,
            {| store := store w; calls := calls w;
               diagnostics := diagnostics w ++ [msg] |}).

Definition error (msg : string) : Value := VObj [("error", VStr msg)].

(** [xs.map(f)] where [f] may throw. *)
Fixpoint mapC {A B} (f : A -> Completion B) (xs : list A) : Completion (list B) :=
  match xs with
  | [] => Normal []
  | x :: rest =>
      match f x with
      | Throw e => Throw e
      | Normal y =>
          match mapC f rest with
          | Throw e => Throw e
          | Normal ys => Normal (y :: ys)
          end
      end
  end.

(** [v.length]: the length of an array or string, an object's own
    [length] property. *)
Definition get_length (v : Value) : Completion Value :=
  match v with
  | VUndefined =>
      Throw (TypeError "Cannot read properties of undefined (reading 'length')")
  | VNull =>
      Throw (TypeError "Cannot read properties of null (reading 'length')")
  | VArr l => Normal (num_of_nat (List.length l))
  | VStr s => Normal (num_of_nat (String.length s))
  | VObj kvs => Normal (lookup "length" kvs)
  | _ => Normal VUndefined
  end.

(** [const { k } = await ...]: destructuring the reply of a call. *)
Definition destructure (v : Value) (k : string) : Completion Value :=
  match v with
  | VUndefined =>
      Throw (TypeError ("Cannot destructure property '" ++ k
                        ++ "' of '(intermediate value)' as it is undefined."))
  | VNull =>
      Throw (TypeError ("Cannot destructure property '" ++ k
                        ++ "' of '(intermediate value)' as it is null."))
  | _ => get_prop v k
  end.

(** [keys.map(() => "?").join(",")] *)
Definition placeholders (keys : list string) : string :=
  join "," (map (fun _ => "?") keys).

(** ** Operators *)

Definition tableSql (tableName c1Constraint : string) : string :=
"
    CREATE TABLE IF NOT EXISTS " ++ tableName ++ " (
      id INTEGER PRIMARY KEY AUTOINCREMENT,
      c1 VARCHAR(255) " ++ c1Constraint ++ ",
      c2 VARCHAR(255), c3 VARCHAR(255),
      i1 INT, i2 INT, i3 INT,
      d1 DOUBLE, d2 DOUBLE, d3 DOUBLE,
      t1 TEXT, t2 TEXT, t3 TEXT,
      v1 TIMESTAMP DEFAULT CURRENT_TIMESTAMP,
      v2 TIMESTAMP DEFAULT CURRENT_TIMESTAMP,
      v3 TIMESTAMP DEFAULT CURRENT_TIMESTAMP
    );
  ".

Definition createTableStatements (tableName : string) (c1Unique : bool)
  : list Stmt :=
  let c1Constraint := if c1Unique then "UNIQUE" else "" in
  [prepare (tableSql tableName c1Constraint)]
  ++ (if negb c1Unique
      then [prepare ("CREATE INDEX IF NOT EXISTS idx_" ++ tableName
                     ++ "_c1 ON " ++ tableName ++ "(c1)")]
      else [])
  ++ [prepare ("CREATE INDEX IF NOT EXISTS idx_" ++ tableName
               ++ "_v2 ON " ++ tableName ++ "(v2)")].

Definition daCreateTable (tableName : string) (c1Unique : bool) : M Value :=
  db_call (Batch (createTableStatements tableName c1Unique)).

Definition versionInsert (tableName : string) : string :=
"
    INSERT OR IGNORE INTO " ++ tableName ++ " (id, c1, c2, i1, d1)
    VALUES (1, '___basic_db_version', ?, ?, ?);
  ".

Definition systemReserveInsert (tableName : string) : string :=
"
    INSERT OR IGNORE INTO " ++ tableName ++ " (id, c1) VALUES (100, '___systemReserve');
  ".

(** [daSystemTableInit].  The table is created first.  The argument list of
    the second [db.batch] then reads [DB_VERSION], an identifier that no
    declaration binds, so evaluating it throws before the batch is submitted;
    [newUuid] and the two INSERT texts above are computed but never used. *)
Definition daSystemTableInit : M Value :=
  let tableName := DB_DA_SYSTEM_TABLENAME in
  daCreateTable tableName true ;;;
  throw (ReferenceError "DB_VERSION is not defined").

(** ** Core API: one definition per [case] of the [switch] *)

Definition case_init_system : M Value :=
  daSystemTableInit ;;;
  ret (VObj [("success", VBool true);
             ("message", VStr "System table and reserved records initialized.")]).

Definition case_exec (payload : Value) : M Value :=
  query <- lift (get_prop payload "query") ;;
  params <- lift (get_prop payload "params") ;;
  if negb (truthy query) then ret (error "Missing SQL query")
  else
    match query with
    | VStr q =>
        let lowerQuery := trim (toLowerCase q) in
        if includes lowerQuery "sqlite_master" || includes lowerQuery "_cf_"
        then ret (error "Access to system tables via EXEC is forbidden.")
        else
          try_catch
            (let stmt := prepare q in
             result <- db_call (All (match params with
                                     | VArr ps => bind stmt ps
                                     | _ => stmt
                                     end)) ;;
             results <- lift (get_prop result "results") ;;
             meta <- lift (get_prop result "meta") ;;
             ret (VObj [("success", VBool true);
                        ("results", js_or results (VArr []));
                        ("meta", meta)]))
            (fun err => ret (error ("SQL Execution Error: " ++ err_message err)))
    | _ => throw (TypeError "query.toLowerCase is not a function")
    end.

Definition case_create_table (tableName : string) (payload : Value) : M Value :=
  c1_unique <- lift (get_prop payload "c1_unique") ;;
  let c1Unique := truthy c1_unique in
  daCreateTable tableName c1Unique ;;;
  ret (VObj [("message", VStr ("Table " ++ tableName ++ " ready."))]).

Definition listTablesSql : string :=
"
          SELECT name FROM sqlite_master
          WHERE type='table' AND name NOT LIKE 'sqlite_%' AND name NOT LIKE '_cf_%'
        ".

Definition case_list_tables : M Value :=
  r <- db_call (All (prepare listTablesSql)) ;;
  results <- lift (destructure r "results") ;;
  count <- lift (get_length results) ;;
  match results with
  | VArr rows =>
      names <- lift (mapC (fun row => get_prop row "name") rows) ;;
      ret (VObj [("count", count); ("tables", VArr names)])
  | _ => throw (TypeError "results.map is not a function")
  end.

(** The insert statement [batch_post] builds for one record. *)
Definition batchInsert (tableName : string) (record : Value) : Completion Stmt :=
  match normalizeJsonColumns record with
  | Throw e => Throw e
  | Normal record' =>
      match Object_keys record' with
      | Throw e => Throw e
      | Normal allKeys =>
          let keys := filter (fun k => str_mem k allowedColumns) allKeys in
          let sql := "INSERT INTO " ++ tableName ++ " (" ++ join "," keys
                     ++ ") VALUES (" ++ placeholders keys ++ ")" in
          match mapC (get_prop record') keys with
          | Throw e => Throw e
          | Normal values => Normal (bind (prepare sql) values)
          end
      end
  end.

Definition case_batch_post (tableName : string) (payload : Value) : M Value :=
  records <- lift (get_prop payload "data") ;;
  match records with
  | VArr rs =>
      statements <- lift (mapC (batchInsert tableName) rs) ;;
      results <- db_call (Batch statements) ;;
      n <- lift (get_length results) ;;
      ret (VObj [("inserted", n)])
  | _ => ret (error "Payload 'data' must be an array")
  end.

Definition case_drop_table (tableName : string) : M Value :=
  let sql := "DROP TABLE IF EXISTS " ++ tableName in
  db_call (Run (prepare sql)) ;;;
  ret (VObj [("message", VStr ("Table " ++ tableName ++ " has been deleted."))]).

Definition case_create_index (tableName : string) (payload : Value) : M Value :=
  col <- lift (get_prop payload "column") ;;
  if negb (truthy col) || negb (arr_includes allowedColumns col)
  then
    shown <- lift (interpolate col) ;;
    ret (error ("Invalid column: " ++ shown))
  else
    let indexName := "idx_" ++ tableName ++ "_" ++ ToString col in
    unique <- lift (get_prop payload "unique") ;;
    let uniqueStr := if truthy unique then "UNIQUE" else "" in
    let sql := "CREATE " ++ uniqueStr ++ " INDEX IF NOT EXISTS " ++ indexName
               ++ " ON " ++ tableName ++ " (" ++ ToString col ++ ")" in
    db_call (Run (prepare sql)) ;;;
    ret (VObj [("message", VStr ("Index " ++ indexName ++ " created."))]).

Definition case_list_indices (tableName : string) : M Value :=
  r <- db_call (All (prepare ("PRAGMA index_list(" ++ tableName ++ ")"))) ;;
  results <- lift (destructure r "results") ;;
  ret (VObj [("indices", results)]).

Definition case_drop_index (tableName : string) (payload : Value) : M Value :=
  col <- lift (get_prop payload "column") ;;
  if negb (truthy col) then ret (error "Missing column")
  else
    shown <- lift (interpolate col) ;;
    let indexName := "idx_" ++ tableName ++ "_" ++ shown in
    db_call (Run (prepare ("DROP INDEX IF EXISTS " ++ indexName))) ;;;
    ret (VObj [("message", VStr ("Index " ++ indexName ++ " dropped."))]).

Definition notAllowed (k : string) : bool := negb (str_mem k allowedColumns).

Definition case_post (tableName : string) (payload0 : Value) : M Value :=
  payload <- lift (normalizeJsonColumns payload0) ;;
  allKeys <- lift (Object_keys payload) ;;
  let keys := filter (fun k => negb (k =? "table_name")) allKeys in
  let invalidKeys := filter notAllowed keys in
  if negb (List.length invalidKeys =? 0)%nat
  then ret (error ("Invalid columns: " ++ join ", " invalidKeys))
  else
    let sql := "INSERT INTO " ++ tableName ++ " (" ++ join "," keys
               ++ ") VALUES (" ++ placeholders keys ++ ")" in
    values <- lift (mapC (get_prop payload) keys) ;;
    db_call (Run (bind (prepare sql) values)) ;;;
    ret VNull.

Definition case_put (tableName : string) (payload0 : Value) : M Value :=
  id <- lift (get_prop payload0 "id") ;;
  c1 <- lift (get_prop payload0 "c1") ;;
  let hasId := not_nullish id in
  let hasC1 := not_nullish c1 in
  if negb hasId && negb hasC1
  then ret (error "Missing 'id' or 'c1' for update")
  else
    payload <- lift (normalizeJsonColumns payload0) ;;
    allKeys <- lift (Object_keys payload) ;;
    let keysPut :=
      filter (fun k => negb (str_mem k ["table_name"; "id"; "c1"])) allKeys in
    let invalidKeys := filter notAllowed keysPut in
    if negb (List.length invalidKeys =? 0)%nat
    then ret (error ("Invalid columns: " ++ join ", " invalidKeys))
    else
      let whereClause := if hasId then "id = ?" else "c1 = ?" in
      whereValue <- lift (get_prop payload (if hasId then "id" else "c1")) ;;
      stmt <-
        (if (List.length keysPut =? 0)%nat
         then
           ret (bind (prepare ("UPDATE " ++ tableName
                               ++ " SET v2 = CURRENT_TIMESTAMP WHERE "
                               ++ whereClause))
                     [whereValue])
         else
           let setClause := join ", " (map (fun k => k ++ " = ?") keysPut) in
           vals <- lift (mapC (get_prop payload) keysPut) ;;
           ret (bind (prepare ("UPDATE " ++ tableName ++ " SET " ++ setClause
                               ++ ", v2 = CURRENT_TIMESTAMP WHERE "
                               ++ whereClause))
                     (vals ++ [whereValue]))) ;;
      result <- db_call (Run stmt) ;;
      changes <- lift (get_prop result "changes") ;;
      if is_zero changes
      then ret (error "Record not found or no rows updated")
      else ret (VObj [("updated", changes)]).

Definition case_update_c1 (tableName : string) (payload : Value) : M Value :=
  id <- lift (get_prop payload "id") ;;
  new_c1 <- lift (get_prop payload "new_c1") ;;
  if negb (truthy id) || negb (truthy new_c1)
  then ret (error "Missing id or new_c1")
  else
    let sql := "UPDATE " ++ tableName
               ++ " SET c1 = ?, v2 = CURRENT_TIMESTAMP WHERE id = ?" in
    try_catch
      (result <- db_call (Run (bind (prepare sql) [new_c1; id])) ;;
       changes <- lift (get_prop result "changes") ;;
       if is_zero changes then ret (error "Record not found")
       else ret (VObj [("renamed", VBool true)]))
      (fun err =>
         if includes (err_message err) "UNIQUE"
         then ret (error "c1 already exists")
         else throw err).

(** [const { table_name, ...options } = payload]: the own properties of
    [payload] other than [table_name]. *)
Definition restOptions (payload : Value) : Completion Value :=
  match payload with
  | VUndefined =>
      Throw (TypeError "Cannot destructure 'payload' as it is undefined.")
  | VNull =>
      Throw (TypeError "Cannot destructure 'payload' as it is null.")
  | VObj kvs =>
      Normal (VObj (filter (fun kv => negb (fst kv =? "table_name")) kvs))
  | VArr l => Normal (VObj (combine (index_keys (List.length l)) l))
  | VStr s =>
      Normal (VObj (combine (index_keys (String.length s))
                            (map (fun c => VStr (String c EmptyString))
                                 (list_ascii_of_string s))))
  | _ => Normal (VObj [])
  end.

(** [Number.isInteger(l) && l > 0 ? Math.min(l, 500) : 100] *)
Definition getLimit (limit : Value) : Z :=
  match limit with
  | VNum q =>
      if Number_isInteger q && (0 <? int_of q)%Z
      then Z.min (int_of q) 500
      else 100%Z
  | _ => 100%Z
  end.

Definition case_get (tableName : string) (payload : Value) : M Value :=
  options <- lift (restOptions payload) ;;
  optionKeys <- lift (Object_keys options) ;;
  let columnFilters :=
    filter (fun k => negb (str_mem k allowedQueryOptions)) optionKeys in
  match find notAllowed columnFilters with
  | Some k => ret (error ("Invalid column: " ++ k))
  | None =>
      let query0 := "SELECT * FROM " ++ tableName in
      orderOpt <- lift (get_prop options "order") ;;
      let order := if is_str orderOpt "desc" then "DESC" else "ASC" in
      orderbyOpt <- lift (get_prop options "orderby") ;;
      let orderBy :=
        if arr_includes allowedColumns orderbyOpt then ToString orderbyOpt
        else "id" in
      minId <- lift (get_prop options "minId") ;;
      offset <- lift (get_prop options "offset") ;;
      if not_nullish minId && not_nullish offset
      then ret (error "Cannot use both minId and offset")
      else
        let conditions0 := map (fun k => k ++ " = ?") columnFilters in
        params0 <- lift (mapC (get_prop options) columnFilters) ;;
        let bound := orderBy ++ " " ++ (if order =? "ASC" then ">" else "<")
                     ++ " ?" in
        let '(conditions, params) :=
          if not_nullish offset
          then ((conditions0 ++ [bound])%list, (params0 ++ [offset])%list)
          else if not_nullish minId
               then ((conditions0 ++ [bound])%list, (params0 ++ [minId])%list)
               else (conditions0, params0) in
        let query1 :=
          if negb (List.length conditions =? 0)%nat
          then query0 ++ " WHERE " ++ join " AND " conditions
          else query0 in
        let query2 := query1 ++ " ORDER BY " ++ orderBy ++ " " ++ order in
        limitOpt <- lift (get_prop options "limit") ;;
        let limit := getLimit limitOpt in
        let query := query2 ++ " LIMIT " ++ dec limit in
        result <- db_call (All (bind (prepare query) params)) ;;
        results <- lift (get_prop result "results") ;;
        ret (VObj [("rows", js_or results (VArr []))])
  end.

Definition case_delete (tableName : string) (payload : Value) : M Value :=
  allKeys <- lift (Object_keys payload) ;;
  let keys := filter (fun k => negb (k =? "table_name")) allKeys in
  let invalidKeys := filter notAllowed keys in
  if negb (List.length invalidKeys =? 0)%nat
  then ret (error ("Invalid columns: " ++ join ", " invalidKeys))
  else
    stmt <-
      (if (List.length keys =? 0)%nat
       then
         errDelegate ("DELETE ALL from " ++ tableName) ;;;
         ret (bind (prepare ("DELETE FROM " ++ tableName)) [])
       else
         values <- lift (mapC (get_prop payload) keys) ;;
         ret (bind (prepare ("DELETE FROM " ++ tableName ++ " WHERE "
                             ++ join " AND " (map (fun k => k ++ " = ?") keys)))
                   values)) ;;
    result <- db_call (Run stmt) ;;
    changes <- lift (get_prop result "changes") ;;
    ret (VObj [("deleted", js_nullish changes (num_of_Z 0))]).

(** The [switch (action)]: only a string can equal a [case] label. *)
Definition dispatch (action : Value) (tableName : string) (payload : Value)
  : M Value :=
  match action with
  | VStr a =>
      if a =? "init_system" then case_init_system
      else if a =? "exec" then case_exec payload
      else if a =? "create_table" then case_create_table tableName payload
      else if a =? "list_tables" then case_list_tables
      else if a =? "batch_post" then case_batch_post tableName payload
      else if a =? "drop_table" then case_drop_table tableName
      else if a =? "create_index" then case_create_index tableName payload
      else if a =? "list_indices" then case_list_indices tableName
      else if a =? "drop_index" then case_drop_index tableName payload
      else if a =? "post" then case_post tableName payload
      else if a =? "put" then case_put tableName payload
      else if a =? "update_c1" then case_update_c1 tableName payload
      else if a =? "get" then case_get tableName payload
      else if a =? "delete" then case_delete tableName payload
      else ret (error ("Unknown action: " ++ a))
  | _ =>
      shown <- lift (interpolate action) ;;
      ret (error ("Unknown action: " ++ shown))
  end.

Definition handleApiRequest (action payload : Value) : M Value :=
  tableName <- lift (resolveTableName payload) ;;
  match tableName with
  | None =>
      errDelegate "Invalid or missing table_name" ;;;
      ret (error "Invalid or missing table_name")
  | Some tableName =>
      try_catch
        (dispatch action tableName payload)
        (fun err =>
           errDelegate ("DB operation failed: " ++ err_message err) ;;;
           ret (VObj [("error", VStr (err_message err))]))
  end.

(** ** HTTP wrapper *)

(** What [handleApi] reads of the request: the [Authorization] header
    ([None] when absent) and the outcome of [request.json()] ([None] when
    it throws). *)
Record Request : Type := {
  authorization : option string;
  json : option Value
}.

Record Env : Type := {
  DA_INSTANCEID : Value;
  DA_WRITE_TOKEN : Value
}.

(** The object given to [jsonResponse] and the HTTP status. *)
Record Response : Type := {
  status : Z;
  body : Value
}.

Definition jsonResponse (obj : Value) (status : Z) : Response :=
  {| status := status; body := obj |}.

Definition ack (requestId : Value) (sourceId : string) (payload : Value)
  : Response :=
  jsonResponse (VObj [("type", VStr "ack"); ("request_id", requestId);
                      ("source_id", VStr sourceId); ("payload", payload)]) 200.

Definition nack (requestId : Value) (sourceId code : string) (message : Value)
  : Response :=
  jsonResponse
    (VObj [("type", VStr "nack"); ("request_id", requestId);
           ("source_id", VStr sourceId);
           ("payload", VObj [("status", VStr "error"); ("code", VStr code);
                             ("message", message)])]) 400.

(** [a !== b] where [a] is a string or [undefined]. *)
Definition differs (a : option string) (b : Value) : bool :=
  match a, b with
  | Some x, VStr y => negb (x =? y)
  | None, VUndefined => false
  | _, _ => true
  end.

Definition handleApi (request : Request) (env : Env) : M Response :=
  let instanceId := js_or (DA_INSTANCEID env) (VStr G_INSTANCE) in
  let sourceId := C_SERVICE ++ "/" ++ ToString instanceId in
  match authorization request with
  | None => ret (nack (VStr "unknown") sourceId "UNAUTHORIZED" (VStr "Missing Authorization"))
  | Some auth =>
      if (auth =? "") || negb (startsWith auth "Bearer ")
      then ret (nack (VStr "unknown") sourceId "UNAUTHORIZED" (VStr "Missing Authorization"))
      else if differs (nth_error (split " " auth) 1) (DA_WRITE_TOKEN env)
      then ret (nack (VStr "unknown") sourceId "INVALID_TOKEN" (VStr "Token failed"))
      else
        match json request with
        | None => ret (nack (VStr "unknown") sourceId "INVALID_JSON" (VStr "Malformed JSON"))
        | Some body =>
            rid <- lift (get_prop body "request_id") ;;
            let requestId := js_or rid (VStr "unknown") in
            payload <- lift (get_prop body "payload") ;;
            if negb (truthy payload)
            then ret (nack requestId sourceId "INVALID_FIELD" (VStr "Missing payload"))
            else
              action <- lift (get_prop body "action") ;;
              r <- handleApiRequest (js_or action (VStr "")) payload ;;
              err <- lift (if truthy r then get_prop r "error" else Normal r) ;;
              if truthy r && truthy err
              then ret (nack requestId sourceId "REQUEST_FAILED" err)
              else ret (ack requestId sourceId (js_or r (VObj [])))
        end
  end.

(** ** Pages function entry point *)

(** What [onRequest] answers: the plain-text refusal of a method, or the
    JSON response of [handleApi]. *)
Inductive HttpResponse : Type :=
| PlainText (status : Z) (text : string)
| Json (r : Response).

(** [onRequest(context)], given [request.method]. *)
Definition onRequest (method : string) (request : Request) (env : Env)
  : M HttpResponse :=
  if negb (method =? "POST")
  then ret (PlainText 405 "Method Not Allowed")
  else
    r <- handleApi request env ;;
    ret (Json r).

(* ================================================================== *)
(** ** Vocabulary of the statements                                    *)
(* ================================================================== *)

(** The world after one more call, and after one more diagnostic. *)
Definition called (c : DbCall) (st : Store) (w : World) : World :=
  {| store := st; calls := calls w ++ [c]; diagnostics := diagnostics w |}.

Definition logged (msg : string) (w : World) : World :=
  {| store := store w; calls := calls w; diagnostics := diagnostics w ++ [msg] |}.

(** The three ways a [table_name] is refused, in the words of the spec. *)
Inductive BadTableName (payload : Value) : Prop :=
| table_name_absent :
    get_prop payload "table_name" = Normal VUndefined -> BadTableName payload
| table_name_blank s :
    get_prop payload "table_name" = Normal (VStr s) ->
    trim s = "" -> BadTableName payload
| table_name_forbidden s :
    get_prop payload "table_name" = Normal (VStr s) ->
    In s FORBIDDEN_TABLES -> BadTableName payload.

Definition startsNonWs (n : string) : bool :=
  match n with
  | EmptyString => false
  | String a _ => negb (isWs a)
  end.

Fixpoint endsNonWs (n : string) : bool :=
  match n with
  | EmptyString => false
  | String a EmptyString => negb (isWs a)
  | String _ r => endsNonWs r
  end.

Definition norm1 (k : string) (kvs : list (string * Value))
  : list (string * Value) :=
  if is_object (lookup k kvs)
  then update k (VStr (JSON_stringify (lookup k kvs))) kvs
  else kvs.

Definition normalized (kvs : list (string * Value)) : list (string * Value) :=
  norm1 "t3" (norm1 "t2" (norm1 "t1" kvs)).

(** The keys [put] assigns: [keysPut] in the source. *)
Definition putKeys (kvs : list (string * Value)) : list string :=
  filter (fun k => negb (str_mem k ["table_name"; "id"; "c1"])) (map fst kvs).

(** The column and value of the WHERE clause. *)
Definition putWhere (kvs : list (string * Value)) : string * Value :=
  if not_nullish (lookup "id" kvs)
  then ("id", lookup "id" kvs) else ("c1", lookup "c1" kvs).

(** An UPDATE in terms of its list of assignments: one [k = ?] per key in
    [setKeys], then the refresh of [v2]. *)
Definition updateStmt (tableName : string) (setKeys : list string)
  (setValues : list Value) (whereCol : string) (whereValue : Value) : Stmt :=
  {| sql := "UPDATE " ++ tableName ++ " SET "
            ++ join ", " (List.app (map (fun k => k ++ " = ?") setKeys)
                                   ["v2 = CURRENT_TIMESTAMP"])
            ++ " WHERE " ++ whereCol ++ " = ?";
     binds := (setValues ++ [whereValue])%list |}.

Definition putStmt (tableName : string) (kvs : list (string * Value)) : Stmt :=
  updateStmt tableName (putKeys kvs)
    (map (fun k => lookup k (normalized kvs)) (putKeys kvs))
    (fst (putWhere kvs)) (snd (putWhere kvs)).

(** What the outer [catch] makes of an exception. *)
Definition caught (e : Exn) (w : World) : Completion Value * World :=
  (Normal (VObj [("error", VStr (err_message e))]),
   logged ("DB operation failed: " ++ err_message e) w).

Definition remove_key (k : string) (kvs : list (string * Value))
  : list (string * Value) :=
  filter (fun kv => negb (fst kv =? k)) kvs.

(** The statement [update_c1] runs. *)
Definition renameStmt (tableName : string) (new_c1 id : Value) : Stmt :=
  {| sql := "UPDATE " ++ tableName
            ++ " SET c1 = ?, v2 = CURRENT_TIMESTAMP WHERE id = ?";
     binds := [new_c1; id] |}.

(** The row limit, in the words of the spec. *)
Inductive limit_spec : Value -> Z -> Prop :=
| limit_given q :
    Number_isInteger q = true -> (0 < int_of q <= 500)%Z ->
    limit_spec (VNum q) (int_of q)
| limit_capped q :
    Number_isInteger q = true -> (500 < int_of q)%Z ->
    limit_spec (VNum q) 500
| limit_default v :
    (forall q, v = VNum q -> Number_isInteger q = true -> (int_of q <= 0)%Z) ->
    limit_spec v 100.

(** The fixed schema, one column definition per entry; only [c1] depends
    on the uniqueness flag. *)
Definition schema (c1Unique : bool) : list string :=
  [ "id INTEGER PRIMARY KEY AUTOINCREMENT";
    (if c1Unique then "c1 VARCHAR(255) UNIQUE" else "c1 VARCHAR(255)");
    "c2 VARCHAR(255)"; "c3 VARCHAR(255)";
    "i1 INT"; "i2 INT"; "i3 INT";
    "d1 DOUBLE"; "d2 DOUBLE"; "d3 DOUBLE";
    "t1 TEXT"; "t2 TEXT"; "t3 TEXT";
    "v1 TIMESTAMP DEFAULT CURRENT_TIMESTAMP";
    "v2 TIMESTAMP DEFAULT CURRENT_TIMESTAMP";
    "v3 TIMESTAMP DEFAULT CURRENT_TIMESTAMP" ].

(** The name a column definition starts with. *)
Definition column_name (def : string) : string := hd "" (split " " def).

(** The columns [batch_post] inserts for a record: its keys that are in the
    allow-list, in the record's order; any other key is left out. *)
Definition insertKeys (kvs : list (string * Value)) : list string :=
  filter (fun k => str_mem k allowedColumns) (map fst kvs).

Definition insertStmt (tableName : string) (kvs : list (string * Value))
  : Stmt :=
  {| sql := "INSERT INTO " ++ tableName ++ " (" ++ join "," (insertKeys kvs)
            ++ ") VALUES (" ++ placeholders (insertKeys kvs) ++ ")";
     binds := map (fun k => lookup k (normalized kvs)) (insertKeys kvs) |}.

(** The two gates of [handleApi] before the body is read. *)
Definition authorized (request : Request) (env : Env) : bool :=
  match authorization request with
  | None => false
  | Some auth =>
      negb ((auth =? "") || negb (startsWith auth "Bearer "))
      && negb (differs (nth_error (split " " auth) 1) (DA_WRITE_TOKEN env))
  end.

(** The [request_id] a response carries: [body.request_id] when the request
    is authorized, its body parses and that field is truthy; otherwise the
    sentinel. *)
Definition echoed_request_id (request : Request) (env : Env) : Value :=
  if authorized request env then
    match json request with
    | Some b =>
        match get_prop b "request_id" with
        | Normal rid => if truthy rid then rid else VStr "unknown"
        | Throw _ => VStr "unknown"
        end
    | None => VStr "unknown"
    end
  else VStr "unknown".

(** The number of [?] placeholders in a text. *)
Fixpoint qmarks (s : string) : nat :=
  match s with
  | EmptyString => 0
  | String c r => (if Ascii.eqb c "?" then 1 else 0) + qmarks r
  end.

(** The keys [post] and [delete] work on: every key but [table_name]. *)
Definition dataKeys (kvs : list (string * Value)) : list string :=
  filter (fun k => negb (k =? "table_name")) (map fst kvs).

(** The statement of a valid [post]. *)
Definition postStmt (tableName : string) (kvs : list (string * Value)) : Stmt :=
  {| sql := "INSERT INTO " ++ tableName ++ " (" ++ join "," (dataKeys kvs)
            ++ ") VALUES (" ++ placeholders (dataKeys kvs) ++ ")";
     binds := map (fun k => lookup k (normalized kvs)) (dataKeys kvs) |}.

(** The statement of a valid [delete]: no WHERE clause without keys. *)
Definition deleteStmt (tableName : string) (kvs : list (string * Value))
  : Stmt :=
  {| sql := "DELETE FROM " ++ tableName
            ++ (if (List.length (dataKeys kvs) =? 0)%nat then ""
                else " WHERE "
                     ++ join " AND " (map (fun k => k ++ " = ?") (dataKeys kvs)));
     binds := map (fun k => lookup k kvs) (dataKeys kvs) |}.

(** The equality filters of a [get]: the keys that are not query options. *)
Definition getFilters (kvs : list (string * Value)) : list string :=
  filter (fun k => negb (str_mem k allowedQueryOptions)) (map fst kvs).

Definition getOrder (kvs : list (string * Value)) : string :=
  if is_str (lookup "order" kvs) "desc" then "DESC" else "ASC".

Definition getOrderBy (kvs : list (string * Value)) : string :=
  match lookup "orderby" kvs with
  | VStr s => if str_mem s allowedColumns then s else "id"
  | _ => "id"
  end.

(** The keyset bound of a [get]: [offset] when given, else [minId]. *)
Definition getBound (kvs : list (string * Value)) : option Value :=
  if not_nullish (lookup "offset" kvs) then Some (lookup "offset" kvs)
  else if not_nullish (lookup "minId" kvs) then Some (lookup "minId" kvs)
  else None.

Definition getConditions (kvs : list (string * Value)) : list string :=
  List.app (map (fun k => k ++ " = ?") (getFilters kvs))
           (match getBound kvs with
            | Some _ =>
                [getOrderBy kvs ++ " "
                 ++ (if getOrder kvs =? "ASC" then ">" else "<") ++ " ?"]
            | None => []
            end).

Definition getStmt (tableName : string) (kvs : list (string * Value)) : Stmt :=
  {| sql := "SELECT * FROM " ++ tableName
            ++ (match getConditions kvs with
                | [] => ""
                | cs => " WHERE " ++ join " AND " cs
                end)
            ++ " ORDER BY " ++ getOrderBy kvs ++ " " ++ getOrder kvs
            ++ " LIMIT " ++ dec (getLimit (lookup "limit" kvs));
     binds := List.app (map (fun k => lookup k kvs) (getFilters kvs))
                       (match getBound kvs with
                        | Some v => [v]
                        | None => []
                        end) |}.

(** The fourteen action names of the [switch]. *)
Definition knownActions : list string :=
  ["init_system"; "exec"; "create_table"; "list_tables"; "batch_post";
   "drop_table"; "create_index"; "list_indices"; "drop_index"; "post";
   "put"; "update_c1"; "get"; "delete"].

(** The index name [create_index] and [drop_index] derive. *)
Definition indexName (tableName col : string) : string :=
  "idx_" ++ tableName ++ "_" ++ col.

(** A string with no white space at either end. *)
Definition isTrimmed (s : string) : Prop := trim s = s.

(** The [source_id] of every envelope. *)
Definition sourceIdOf (env : Env) : string :=
  C_SERVICE ++ "/" ++ ToString (js_or (DA_INSTANCEID env) (VStr G_INSTANCE)).

(** The [request_id] of an envelope once the body [b] has been read. *)
Definition requestIdOf (b : Value) : Value :=
  match get_prop b "request_id" with
  | Normal rid => js_or rid (VStr "unknown")
  | Throw _ => VStr "unknown"
  end.





(* ================================================================== *)
(** ** Properties                                                      *)
(* ================================================================== *)

(** Enter the [case] the action selects, once the table name resolved. *)
Ltac enter_case H :=
  unfold handleApiRequest, mbind, lift, try_catch;
  rewrite H;
  cbn [dispatch String.eqb Ascii.eqb Bool.eqb].

(** *** The string primitives on small inputs *)

Example trim_both_ends : trim "  sqlite_master " = "sqlite_master".
Proof. reflexivity. Qed.

Example trim_blank : trim "   " = "".
Proof. reflexivity. Qed.

Example trim_keeps_inner : trim " a b " = "a b".
Proof. reflexivity. Qed.

Example toLowerCase_mixed : toLowerCase "SQLite_Master" = "sqlite_master".
Proof. reflexivity. Qed.

Example includes_inner : includes "select * from _cf_kv" "_cf_" = true.
Proof. reflexivity. Qed.

Example includes_absent : includes "select 1" "_cf_" = false.
Proof. reflexivity. Qed.

Example split_bearer : split " " "Bearer abc def" = ["Bearer"; "abc"; "def"].
Proof. reflexivity. Qed.

Example join_columns : join "," ["c1"; "i1"; "t1"] = "c1,i1,t1".
Proof. reflexivity. Qed.

Example resolve_trims :
  resolveTableName (VObj [("table_name", VStr " users ")]) = Normal (Some "users").
Proof. reflexivity. Qed.

Example resolve_number_throws :
  resolveTableName (VObj [("table_name", num_of_Z 5)])
  = Throw (TypeError "payload.table_name?.trim is not a function").
Proof. reflexivity. Qed.

(** *** Table-name resolution *)

Lemma resolveTableName_bad payload :
  BadTableName payload -> resolveTableName payload = Normal None.
Proof.
  unfold resolveTableName.
  intros [H | s H Hb | s H Hf]; rewrite H.
  - reflexivity.
  - now rewrite Hb.
  - simpl in Hf.
    destruct Hf as [<- | [<- | [<- | [<- | []]]]]; reflexivity.
Qed.

(** A payload whose table name resolves is an object. *)
Lemma resolveTableName_obj payload tn :
  resolveTableName payload = Normal (Some tn) ->
  exists kvs, payload = VObj kvs.
Proof.
  unfold resolveTableName.
  destruct payload; simpl; try discriminate.
  intros _. now eexists.
Qed.

(** C2. Whatever the action, a payload whose [table_name] is absent, blank
    after trimming, or one of the four forbidden catalog names is answered
    with the error "Invalid or missing table_name"; the store is not
    touched, no call is issued, and the only effect is the diagnostic. *)
Theorem bad_table_name_rejected_uniformly action payload w :
  BadTableName payload ->
  handleApiRequest action payload w
  = (Normal (error "Invalid or missing table_name"),
     logged "Invalid or missing table_name" w).
Proof.
  intros Hbad.
  unfold handleApiRequest, mbind, lift.
  now rewrite (resolveTableName_bad _ Hbad).
Qed.

(** *** Trimming does not hide a needle free of outer white space *)

Lemma prefix_cons a n c r :
  prefix (String a n) (String c r) = true -> a = c /\ prefix n r = true.
Proof.
  simpl. destruct (ascii_dec a c); [auto | discriminate].
Qed.

Lemma prefix_cons_same c n r :
  prefix n r = true -> prefix (String c n) (String c r) = true.
Proof.
  intros H. simpl. destruct (ascii_dec c c); [assumption | congruence].
Qed.

Lemma prefix_nil_l s : prefix "" s = true.
Proof. destruct s; reflexivity. Qed.

Lemma includes_cons c r n :
  includes r n = true -> includes (String c r) n = true.
Proof.
  intros H. cbn [includes]. destruct (prefix n (String c r)); [reflexivity | exact H].
Qed.

Lemma includes_prefix s n :
  prefix n s = true -> includes s n = true.
Proof.
  intros H. destruct s; cbn [includes]; now rewrite H.
Qed.

Lemma includes_nonempty s n :
  n <> "" -> includes s n = true -> s <> "".
Proof.
  intros Hn Hs ->. destruct n; [congruence | discriminate].
Qed.

Lemma includes_trimStart s n :
  startsNonWs n = true ->
  includes s n = true -> includes (trimStart s) n = true.
Proof.
  destruct n as [| a n]; [discriminate |].
  simpl. intros Ha.
  induction s as [| c r IH]; [trivial |].
  intros H. cbn [trimStart].
  destruct (isWs c) eqn:Hc; [| exact H].
  apply IH.
  cbn [includes] in H.
  destruct (prefix (String a n) (String c r)) eqn:Hp; [| exact H].
  apply prefix_cons in Hp as [-> _].
  rewrite Hc in Ha. discriminate.
Qed.

Lemma prefix_trimEnd s : forall n,
  endsNonWs n = true ->
  prefix n s = true -> prefix n (trimEnd s) = true.
Proof.
  induction s as [| c r IH]; intros n Hn Hp.
  - exact Hp.
  - destruct n as [| a n]; [discriminate |].
    apply prefix_cons in Hp as [-> Hp].
    cbn [trimEnd].
    destruct n as [| b n].
    + cbn [endsNonWs] in Hn.
      destruct (trimEnd r).
      * destruct (isWs c); [discriminate |].
        apply prefix_cons_same, prefix_nil_l.
      * apply prefix_cons_same, prefix_nil_l.
    + assert (Hn' : endsNonWs (String b n) = true) by exact Hn.
      specialize (IH _ Hn' Hp).
      destruct (trimEnd r) as [| d r'].
      * destruct r; discriminate.
      * now apply prefix_cons_same.
Qed.

Lemma includes_trimEnd s n :
  endsNonWs n = true ->
  includes s n = true -> includes (trimEnd s) n = true.
Proof.
  intros Hn.
  assert (Hne : n <> "") by (intros ->; discriminate).
  induction s as [| c r IH]; [trivial |].
  intros H.
  cbn [includes] in H.
  destruct (prefix n (String c r)) eqn:Hp.
  - apply (prefix_trimEnd _ _ Hn) in Hp.
    now apply includes_prefix.
  - specialize (IH H).
    pose proof (includes_nonempty _ _ Hne IH) as Hr.
    cbn [trimEnd].
    destruct (trimEnd r) as [| d r']; [congruence |].
    now apply includes_cons.
Qed.

Lemma includes_trim s n :
  startsNonWs n = true -> endsNonWs n = true ->
  includes s n = true -> includes (trim s) n = true.
Proof.
  intros Hs He H. unfold trim.
  now apply includes_trimEnd, includes_trimStart.
Qed.

(** *** exec *)

Lemma toLowerCase_empty q : toLowerCase q = "" -> q = "".
Proof. destruct q; [reflexivity | discriminate]. Qed.

(** C3. An [exec] request (one that reaches [case "exec"], its table name
    having resolved) whose query text contains "sqlite_master" or "_cf_"
    once lowercased is answered with "Access to system tables via EXEC is
    forbidden."; the world is unchanged: nothing is prepared, bound or
    executed, and nothing is logged. *)
Theorem exec_system_tables_forbidden tn payload q w :
  resolveTableName payload = Normal (Some tn) ->
  get_prop payload "query" = Normal (VStr q) ->
  includes (toLowerCase q) "sqlite_master" = true
  \/ includes (toLowerCase q) "_cf_" = true ->
  handleApiRequest (VStr "exec") payload w
  = (Normal (error "Access to system tables via EXEC is forbidden."), w).
Proof.
  intros Hres Hq Hinc.
  destruct (resolveTableName_obj _ _ Hres) as [kvs ->].
  assert (Hne : q <> "").
  { intros ->. destruct Hinc as [H | H]; discriminate. }
  assert (Htrim : includes (trim (toLowerCase q)) "sqlite_master"
                  || includes (trim (toLowerCase q)) "_cf_" = true).
  { apply orb_true_iff.
    destruct Hinc as [H | H]; [left | right];
      (apply includes_trim; [reflexivity | reflexivity | exact H]). }
  enter_case Hres.
  unfold case_exec, mbind, lift, ret.
  rewrite Hq. cbn [get_prop truthy].
  apply String.eqb_neq in Hne. rewrite Hne. cbn [negb].
  now rewrite Htrim.
Qed.

(** *** Objects: normalisation keeps keys and all columns but t1..t3 *)

Lemma append_assoc (a b c : string) : (a ++ b) ++ c = a ++ (b ++ c).
Proof. induction a as [| x a IH]; simpl; [reflexivity | now rewrite IH]. Qed.

Lemma join_snoc sep x xs :
  xs <> [] -> join sep (xs ++ [x])%list = join sep xs ++ sep ++ x.
Proof.
  induction xs as [| y ys IH]; [congruence |].
  intros _. destruct ys as [| z zs].
  - reflexivity.
  - change (join sep ((y :: z :: zs) ++ [x])%list)
      with (y ++ sep ++ join sep ((z :: zs) ++ [x])%list).
    rewrite IH by discriminate.
    change (join sep (y :: z :: zs)) with (y ++ sep ++ join sep (z :: zs)).
    now rewrite !append_assoc.
Qed.

Lemma keys_update k v kvs : map fst (update k v kvs) = map fst kvs.
Proof.
  induction kvs as [| [k' v'] rest IH]; [reflexivity |].
  simpl. destruct (k' =? k); simpl; [reflexivity | now rewrite IH].
Qed.

Lemma lookup_update_other k k' v kvs :
  k' <> k -> lookup k' (update k v kvs) = lookup k' kvs.
Proof.
  intros Hne.
  induction kvs as [| [k0 v0] rest IH]; [reflexivity |].
  simpl. destruct (k0 =? k) eqn:E; simpl.
  - apply String.eqb_eq in E. subst k0.
    apply not_eq_sym, String.eqb_neq in Hne. now rewrite Hne.
  - now rewrite IH.
Qed.

Lemma normalizeJsonColumns_obj kvs :
  normalizeJsonColumns (VObj kvs) = Normal (VObj (normalized kvs)).
Proof.
  unfold normalizeJsonColumns, normalizeColumn, normalized, norm1.
  cbn [get_prop].
  destruct (is_object (lookup "t1" kvs)); cbn [set_prop get_prop];
    match goal with |- context [is_object (lookup "t2" ?l)] =>
      destruct (is_object (lookup "t2" l)) end; cbn [set_prop get_prop];
    match goal with |- context [is_object (lookup "t3" ?l)] =>
      destruct (is_object (lookup "t3" l)) end; reflexivity.
Qed.

Lemma keys_norm1 k kvs : map fst (norm1 k kvs) = map fst kvs.
Proof.
  unfold norm1. destruct (is_object _); [apply keys_update | reflexivity].
Qed.

Lemma keys_normalized kvs : map fst (normalized kvs) = map fst kvs.
Proof. unfold normalized. now rewrite !keys_norm1. Qed.

Lemma lookup_norm1_other k k' kvs :
  k' <> k -> lookup k' (norm1 k kvs) = lookup k' kvs.
Proof.
  intros H. unfold norm1.
  destruct (is_object _); [now apply lookup_update_other | reflexivity].
Qed.

Lemma lookup_normalized k kvs :
  k <> "t1" -> k <> "t2" -> k <> "t3" ->
  lookup k (normalized kvs) = lookup k kvs.
Proof.
  intros H1 H2 H3. unfold normalized.
  now rewrite !lookup_norm1_other.
Qed.

Lemma mapC_get_prop_obj kvs ks :
  mapC (get_prop (VObj kvs)) ks = Normal (map (fun k => lookup k kvs) ks).
Proof.
  induction ks as [| k ks IH]; [reflexivity |].
  cbn [mapC get_prop map]. now rewrite IH.
Qed.

(** *** put *)

(** A [put] that passes validation runs exactly [putStmt]; its answer is
    read off the [changes] field of what the store returns. *)
Lemma put_runs tn kvs w :
  resolveTableName (VObj kvs) = Normal (Some tn) ->
  not_nullish (lookup "id" kvs) || not_nullish (lookup "c1" kvs) = true ->
  filter notAllowed (putKeys kvs) = [] ->
  handleApiRequest (VStr "put") (VObj kvs) w
  = match db_exec (Run (putStmt tn kvs)) (store w) with
    | (Normal r, st') =>
        let w' := called (Run (putStmt tn kvs)) st' w in
        match get_prop r "changes" with
        | Normal ch =>
            (Normal (if is_zero ch
                     then error "Record not found or no rows updated"
                     else VObj [("updated", ch)]), w')
        | Throw e => caught e w'
        end
    | (Throw e, st') => caught e (called (Run (putStmt tn kvs)) st' w)
    end.
Proof.
  intros Hres Hid Hvalid.
  enter_case Hres.
  unfold case_put, mbind, lift, ret.
  cbn [get_prop].
  apply orb_true_iff in Hid.
  replace (negb (not_nullish (lookup "id" kvs))
           && negb (not_nullish (lookup "c1" kvs))) with false
    by (destruct Hid as [-> | ->]; simpl; now rewrite ?andb_false_r).
  rewrite normalizeJsonColumns_obj.
  cbn [Object_keys]. rewrite keys_normalized.
  fold (putKeys kvs). rewrite Hvalid.
  cbn [List.length Nat.eqb negb].
  assert (Hw : get_prop (VObj (normalized kvs))
                 (if not_nullish (lookup "id" kvs) then "id" else "c1")
               = Normal (snd (putWhere kvs))).
  { unfold putWhere. cbn [get_prop].
    destruct (not_nullish (lookup "id" kvs));
      (rewrite lookup_normalized by discriminate); reflexivity. }
  rewrite Hw.
  assert (Hstmt :
    (if (List.length (putKeys kvs) =? 0)%nat
     then
       (fun w0 : World =>
          (Normal (bind (prepare ("UPDATE " ++ tn
                                  ++ " SET v2 = CURRENT_TIMESTAMP WHERE "
                                  ++ (if not_nullish (lookup "id" kvs)
                                      then "id = ?" else "c1 = ?")))
                        [snd (putWhere kvs)]), w0))
     else
       (fun w0 : World =>
          match mapC (get_prop (VObj (normalized kvs))) (putKeys kvs) with
          | Normal vals =>
              (Normal (bind (prepare ("UPDATE " ++ tn ++ " SET "
                                      ++ join ", " (map (fun k => k ++ " = ?") (putKeys kvs))
                                      ++ ", v2 = CURRENT_TIMESTAMP WHERE "
                                      ++ (if not_nullish (lookup "id" kvs)
                                          then "id = ?" else "c1 = ?")))
                            (vals ++ [snd (putWhere kvs)])), w0)
          | Throw e => (Throw e, w0)
          end)) w
    = (Normal (putStmt tn kvs), w)).
  { unfold putStmt, updateStmt, bind, prepare, putWhere. cbn [sql].
    destruct (putKeys kvs) as [| k ks] eqn:Hk.
    - cbn [List.length Nat.eqb map app join].
      destruct (not_nullish (lookup "id" kvs)); reflexivity.
    - cbn [List.length Nat.eqb].
      rewrite mapC_get_prop_obj.
      rewrite join_snoc by discriminate.
      rewrite !append_assoc.
      destruct (not_nullish (lookup "id" kvs)); reflexivity. }
  match goal with
  | |- context [match ?m w with _ => _ end] =>
      match type of Hstmt with ?m' w = _ => change m with m' end
  end.
  rewrite Hstmt.
  unfold db_call.
  destruct (db_exec (Run (putStmt tn kvs)) (store w)) as [[r | e] st'].
  - fold (called (Run (putStmt tn kvs)) st' w).
    destruct (get_prop r "changes") as [ch | e]; [| reflexivity].
    destruct (is_zero ch); reflexivity.
  - reflexivity.
Qed.

Lemma put_missing tn kvs w :
  resolveTableName (VObj kvs) = Normal (Some tn) ->
  not_nullish (lookup "id" kvs) || not_nullish (lookup "c1" kvs) = false ->
  handleApiRequest (VStr "put") (VObj kvs) w
  = (Normal (error "Missing 'id' or 'c1' for update"), w).
Proof.
  intros Hres Hid.
  enter_case Hres.
  unfold case_put, mbind, lift, ret.
  cbn [get_prop].
  apply orb_false_iff in Hid as [-> ->]. reflexivity.
Qed.

Lemma put_invalid tn kvs w :
  resolveTableName (VObj kvs) = Normal (Some tn) ->
  not_nullish (lookup "id" kvs) || not_nullish (lookup "c1" kvs) = true ->
  filter notAllowed (putKeys kvs) <> [] ->
  handleApiRequest (VStr "put") (VObj kvs) w
  = (Normal (error ("Invalid columns: "
                    ++ join ", " (filter notAllowed (putKeys kvs)))), w).
Proof.
  intros Hres Hid Hinv.
  enter_case Hres.
  unfold case_put, mbind, lift, ret.
  cbn [get_prop].
  apply orb_true_iff in Hid.
  replace (negb (not_nullish (lookup "id" kvs))
           && negb (not_nullish (lookup "c1" kvs))) with false
    by (destruct Hid as [-> | ->]; simpl; now rewrite ?andb_false_r).
  rewrite normalizeJsonColumns_obj.
  cbn [Object_keys]. rewrite keys_normalized.
  fold (putKeys kvs).
  destruct (filter notAllowed (putKeys kvs)); [congruence | reflexivity].
Qed.

Lemma put_calls tn kvs w :
  resolveTableName (VObj kvs) = Normal (Some tn) ->
  not_nullish (lookup "id" kvs) || not_nullish (lookup "c1" kvs) = true ->
  filter notAllowed (putKeys kvs) = [] ->
  calls (snd (handleApiRequest (VStr "put") (VObj kvs) w))
  = (calls w ++ [Run (putStmt tn kvs)])%list.
Proof.
  intros Hres Hid Hvalid.
  rewrite (put_runs _ _ _ Hres Hid Hvalid).
  destruct (db_exec (Run (putStmt tn kvs)) (store w)) as [[r | e] st'].
  - cbv zeta. destruct (get_prop r "changes"); reflexivity.
  - reflexivity.
Qed.

(** A [put] that names its row (by [id] or [c1]) and has no other key
    but [table_name] runs exactly one statement, an UPDATE whose SET clause
    is [v2 = CURRENT_TIMESTAMP] alone; and a valid [put] is answered
    "Record not found or no rows updated" when the reply of the store has
    a [changes] property of its own that is 0. *)
Theorem put_touch_and_not_found tn kvs w :
  resolveTableName (VObj kvs) = Normal (Some tn) ->
  not_nullish (lookup "id" kvs) || not_nullish (lookup "c1" kvs) = true ->
  (putKeys kvs = [] ->
   calls (snd (handleApiRequest (VStr "put") (VObj kvs) w))
   = (calls w
      ++ [Run {| sql := "UPDATE " ++ tn ++ " SET v2 = CURRENT_TIMESTAMP WHERE "
                        ++ fst (putWhere kvs) ++ " = ?";
                 binds := [snd (putWhere kvs)] |}])%list)
  /\ (forall r st' ch,
        filter notAllowed (putKeys kvs) = [] ->
        db_exec (Run (putStmt tn kvs)) (store w) = (Normal r, st') ->
        get_prop r "changes" = Normal ch ->
        is_zero ch = true ->
        handleApiRequest (VStr "put") (VObj kvs) w
        = (Normal (error "Record not found or no rows updated"),
           called (Run (putStmt tn kvs)) st' w)).
Proof.
  intros Hres Hid. split.
  - intros Hk.
    rewrite (put_calls _ _ _ Hres Hid) by now rewrite Hk.
    unfold putStmt, updateStmt. now rewrite Hk.
  - intros r st' ch Hvalid Hdb Hch Hz.
    rewrite (put_runs _ _ _ Hres Hid Hvalid), Hdb.
    cbv zeta. now rewrite Hch, Hz.
Qed.

(** *** Removing a property from a payload *)

Lemma lookup_remove_other k k' kvs :
  k' <> k -> lookup k' (remove_key k kvs) = lookup k' kvs.
Proof.
  intros Hne.
  induction kvs as [| [k0 v0] rest IH]; [reflexivity |].
  cbn [remove_key filter fst lookup].
  destruct (k0 =? k) eqn:E; cbn [negb].
  - apply String.eqb_eq in E. subst k0.
    apply not_eq_sym, String.eqb_neq in Hne. now rewrite Hne.
  - cbn [lookup]. fold (remove_key k rest). now rewrite IH.
Qed.









(** *** update_c1 *)

Lemma handle_update_c1 tn payload w :
  resolveTableName payload = Normal (Some tn) ->
  handleApiRequest (VStr "update_c1") payload w
  = match case_update_c1 tn payload w with
    | (Throw e, w') => caught e w'
    | r => r
    end.
Proof.
  intros Hres.
  enter_case Hres.
  destruct (case_update_c1 tn payload w) as [[r | e] w']; reflexivity.
Qed.

(** C10. An [update_c1] request whose [id] or [new_c1] is falsy (absent,
    null, 0, the empty string, false) is answered "Missing id or new_c1"
    and leaves the world as it was; whereas [put] tests [id != null], so a
    valid [put] whose [id] is falsy but not nullish (0, for one) does run
    its UPDATE, located by that [id]. *)
Theorem update_c1_rejects_falsy tn w :
  (forall payload id new_c1,
      resolveTableName payload = Normal (Some tn) ->
      get_prop payload "id" = Normal id ->
      get_prop payload "new_c1" = Normal new_c1 ->
      truthy id = false \/ truthy new_c1 = false ->
      handleApiRequest (VStr "update_c1") payload w
      = (Normal (error "Missing id or new_c1"), w))
  /\ (forall kvs,
        resolveTableName (VObj kvs) = Normal (Some tn) ->
        truthy (lookup "id" kvs) = false ->
        not_nullish (lookup "id" kvs) = true ->
        filter notAllowed (putKeys kvs) = [] ->
        calls (snd (handleApiRequest (VStr "put") (VObj kvs) w))
        = (calls w
           ++ [Run (updateStmt tn (putKeys kvs)
                      (map (fun k => lookup k (normalized kvs)) (putKeys kvs))
                      "id" (lookup "id" kvs))])%list).
Proof.
  split.
  - intros payload id new_c1 Hres Hid Hnew Hfalsy.
    rewrite (handle_update_c1 _ _ _ Hres).
    unfold case_update_c1, mbind, lift, ret.
    rewrite Hid, Hnew.
    replace (negb (truthy id) || negb (truthy new_c1)) with true;
      [reflexivity |].
    destruct Hfalsy as [-> | ->]; simpl; now rewrite ?orb_true_r.
  - intros kvs Hres _ Hnn Hvalid.
    rewrite (put_calls _ _ _ Hres) by (assumption || now rewrite Hnn).
    unfold putStmt, putWhere. now rewrite Hnn.
Qed.

(** C6. When the UPDATE of an [update_c1] request throws a store error:
    if the message contains "UNIQUE" the answer is "c1 already exists";
    otherwise the error leaves [case "update_c1"] as thrown, and the outer
    [catch] answers with the error's own message and logs it. *)
Theorem update_c1_store_errors tn payload id new_c1 w msg st' :
  resolveTableName payload = Normal (Some tn) ->
  get_prop payload "id" = Normal id ->
  get_prop payload "new_c1" = Normal new_c1 ->
  truthy id = true -> truthy new_c1 = true ->
  db_exec (Run (renameStmt tn new_c1 id)) (store w)
  = (Throw (StoreError msg), st') ->
  let w' := called (Run (renameStmt tn new_c1 id)) st' w in
  (includes msg "UNIQUE" = true ->
   handleApiRequest (VStr "update_c1") payload w
   = (Normal (error "c1 already exists"), w'))
  /\ (includes msg "UNIQUE" = false ->
      case_update_c1 tn payload w = (Throw (StoreError msg), w')
      /\ handleApiRequest (VStr "update_c1") payload w
         = (Normal (error msg), logged ("DB operation failed: " ++ msg) w')).
Proof.
  intros Hres Hid Hnew Tid Tnew Hdb w'.
  assert (Hcase : case_update_c1 tn payload w
                  = if includes msg "UNIQUE"
                    then (Normal (error "c1 already exists"), w')
                    else (Throw (StoreError msg), w')).
  { unfold case_update_c1, mbind, lift, ret, try_catch, throw, db_call.
    rewrite Hid, Hnew, Tid, Tnew. cbn [negb orb].
    unfold bind, prepare. cbn [sql].
    fold (renameStmt tn new_c1 id). rewrite Hdb.
    cbn [err_message].
    destruct (includes msg "UNIQUE"); reflexivity. }
  rewrite (handle_update_c1 _ _ _ Hres), Hcase.
  split; intros ->; [reflexivity | split; reflexivity].
Qed.

(** *** get *)

Lemma getLimit_spec v : limit_spec v (getLimit v).
Proof.
  destruct v as [| | b | q | s | l | kvs];
    try (apply limit_default; intros q' Hq; discriminate).
  unfold getLimit.
  destruct (Number_isInteger q) eqn:Hi; cbn [andb].
  - destruct (0 <? int_of q)%Z eqn:Hpos.
    + apply Z.ltb_lt in Hpos.
      destruct (Z_le_gt_dec (int_of q) 500) as [Hle | Hgt].
      * rewrite Z.min_l by assumption. apply limit_given; [assumption | lia].
      * rewrite Z.min_r by lia. apply limit_capped; [assumption | lia].
    + apply Z.ltb_ge in Hpos.
      apply limit_default. intros q' [= <-] _. exact Hpos.
  - apply limit_default. intros q' [= <-] Hi'. congruence.
Qed.

(** *** create_table *)

Lemma schema_columns u :
  List.length (schema u) = 16%nat /\ map column_name (schema u) = allowedColumns.
Proof. destruct u; split; reflexivity. Qed.

(** C7. A [create_table] request issues one batch: a CREATE TABLE whose
    column list is the fixed 16-column schema, [c1] being UNIQUE exactly
    when [c1_unique] is truthy; then an index on [c1] exactly when it is
    not; then an index on [v2].  Every statement is a CREATE ... IF NOT
    EXISTS, and the batch depends on the table name and the flag only, so
    a repeated request submits the same statements. *)
Theorem create_table_statements tn payload c1_unique w :
  resolveTableName payload = Normal (Some tn) ->
  get_prop payload "c1_unique" = Normal c1_unique ->
  exists body,
    map trim (split "," body) = schema (truthy c1_unique)
    /\ let stmts :=
         ([prepare ("
    CREATE TABLE IF NOT EXISTS " ++ tn ++ " (" ++ body ++ ");
  ")]
          ++ (if truthy c1_unique then []
              else [prepare ("CREATE INDEX IF NOT EXISTS idx_" ++ tn
                             ++ "_c1 ON " ++ tn ++ "(c1)")])
          ++ [prepare ("CREATE INDEX IF NOT EXISTS idx_" ++ tn
                       ++ "_v2 ON " ++ tn ++ "(v2)")])%list in
       calls (snd (handleApiRequest (VStr "create_table") payload w))
       = (calls w ++ [Batch stmts])%list
       /\ Forall (fun s => includes (sql s) "IF NOT EXISTS" = true) stmts.
Proof.
  intros Hres Hu.
  exists ("
      id INTEGER PRIMARY KEY AUTOINCREMENT,
      c1 VARCHAR(255) " ++ (if truthy c1_unique then "UNIQUE" else "") ++ ",
      c2 VARCHAR(255), c3 VARCHAR(255),
      i1 INT, i2 INT, i3 INT,
      d1 DOUBLE, d2 DOUBLE, d3 DOUBLE,
      t1 TEXT, t2 TEXT, t3 TEXT,
      v1 TIMESTAMP DEFAULT CURRENT_TIMESTAMP,
      v2 TIMESTAMP DEFAULT CURRENT_TIMESTAMP,
      v3 TIMESTAMP DEFAULT CURRENT_TIMESTAMP
    ").
  split; [destruct (truthy c1_unique); reflexivity |].
  cbv zeta. split.
  - enter_case Hres.
    unfold case_create_table, mbind, lift, ret, daCreateTable, db_call.
    rewrite Hu.
    match goal with
    | |- context [db_exec ?c ?st] => destruct (db_exec c st) as [[r | e] st']
    end; cbn [snd calls]; do 2 f_equal;
      unfold createTableStatements, tableSql;
      destruct (truthy c1_unique); reflexivity.
  - destruct (truthy c1_unique); repeat constructor.
Qed.

(** *** batch_post *)

Lemma batchInsert_obj tn kvs :
  batchInsert tn (VObj kvs) = Normal (insertStmt tn kvs).
Proof.
  unfold batchInsert.
  rewrite normalizeJsonColumns_obj.
  cbn [Object_keys]. rewrite keys_normalized.
  fold (insertKeys kvs).
  now rewrite mapC_get_prop_obj.
Qed.

Lemma mapC_batchInsert_objs tn recs :
  mapC (batchInsert tn) (map VObj recs) = Normal (map (insertStmt tn) recs).
Proof.
  induction recs as [| kvs recs IH]; [reflexivity |].
  cbn [map mapC]. now rewrite batchInsert_obj, IH.
Qed.

(** What [batch_post] does with a [data] array of objects: it submits one
    batch holding one INSERT per record, over the record's allow-listed
    keys only, and when the store returns one result per statement it
    answers [inserted: N], N the number of records.  No record is refused
    for its keys, which is where it parts from [post], [put], [delete]
    and [get]. *)
Theorem batch_post_filters_keys tn payload recs w :
  resolveTableName payload = Normal (Some tn) ->
  get_prop payload "data" = Normal (VArr (map VObj recs)) ->
  let stmts := map (insertStmt tn) recs in
  calls (snd (handleApiRequest (VStr "batch_post") payload w))
  = (calls w ++ [Batch stmts])%list
  /\ (forall results st',
        db_exec (Batch stmts) (store w) = (Normal (VArr results), st') ->
        List.length results = List.length recs ->
        handleApiRequest (VStr "batch_post") payload w
        = (Normal (VObj [("inserted", num_of_nat (List.length recs))]),
           called (Batch stmts) st' w)).
Proof.
  intros Hres Hdata stmts.
  assert (Hrun : handleApiRequest (VStr "batch_post") payload w
                 = match db_exec (Batch stmts) (store w) with
                   | (Normal results, st') =>
                       match get_length results with
                       | Normal n =>
                           (Normal (VObj [("inserted", n)]),
                            called (Batch stmts) st' w)
                       | Throw e => caught e (called (Batch stmts) st' w)
                       end
                   | (Throw e, st') => caught e (called (Batch stmts) st' w)
                   end).
  { enter_case Hres.
    unfold case_batch_post, mbind, lift, ret, db_call.
    rewrite Hdata, mapC_batchInsert_objs.
    fold stmts.
    destruct (db_exec (Batch stmts) (store w)) as [[results | e] st'];
      [| reflexivity].
    fold (called (Batch stmts) st' w).
    destruct (get_length results); reflexivity. }
  split.
  - rewrite Hrun.
    destruct (db_exec (Batch stmts) (store w)) as [[results | e] st'];
      [destruct (get_length results) |]; reflexivity.
  - intros results st' Hdb Hlen.
    rewrite Hrun, Hdb. cbn [get_length]. now rewrite Hlen.
Qed.

(** *** The envelope *)

Lemma handleApiRequest_throws action payload w e :
  fst (handleApiRequest action payload w) = Throw e ->
  resolveTableName payload = Throw e.
Proof.
  unfold handleApiRequest, mbind, lift, try_catch.
  destruct (resolveTableName payload) as [[tn |] | e'].
  - destruct (dispatch action tn payload w) as [[r | e''] w']; discriminate.
  - discriminate.
  - now intros [= ->].
Qed.

(** C8, as the code has it.  Every response envelope carries as
    [request_id] the caller's [body.request_id] when the request passed
    the bearer check, the body parsed and that field is truthy, and
    "unknown" in every other case (field absent, null, empty, 0 or false;
    request refused before the body is read).  No envelope is produced
    only when reading the body or resolving the table name throws. *)
Theorem request_id_echoed_when_truthy request env w :
  match fst (handleApi request env w) with
  | Normal resp =>
      get_prop (body resp) "request_id"
      = Normal (echoed_request_id request env)
  | Throw e =>
      authorized request env = true
      /\ exists b, json request = Some b
                   /\ (get_prop b "request_id" = Throw e
                       \/ exists payload,
                            get_prop b "payload" = Normal payload
                            /\ resolveTableName payload = Throw e)
  end.
Proof.
  unfold handleApi, echoed_request_id, authorized.
  destruct (authorization request) as [auth |]; [| reflexivity].
  destruct ((auth =? "") || negb (startsWith auth "Bearer "));
    [reflexivity |].
  destruct (differs _ _); [reflexivity |].
  cbn [negb andb].
  destruct (json request) as [b |]; [| reflexivity].
  unfold mbind, lift, ret.
  destruct (get_prop b "request_id") as [rid | e] eqn:Hrid.
  2:{ cbn [fst]. split; [reflexivity |]. exists b. auto. }
  assert (Hpay : exists payload, get_prop b "payload" = Normal payload).
  { destruct b; try discriminate; cbn [get_prop]; eauto. }
  destruct Hpay as [payload Hpay]. rewrite Hpay.
  destruct (truthy payload); cbn [negb]; [| reflexivity].
  assert (Hact : exists a, get_prop b "action" = Normal a).
  { destruct b; try discriminate; cbn [get_prop]; eauto. }
  destruct Hact as [a ->].
  destruct (handleApiRequest (js_or a (VStr "")) payload w) as [[r | e] w']
    eqn:Hh.
  - destruct (truthy r) eqn:Hr.
    + assert (Herr : exists v, get_prop r "error" = Normal v).
      { destruct r; try discriminate; cbn [get_prop]; eauto. }
      destruct Herr as [v ->].
      cbn [andb]. destruct (truthy v); reflexivity.
    + reflexivity.
  - cbn [fst]. split; [reflexivity |]. exists b. split; [reflexivity |].
    right. exists payload. split; [assumption |].
    apply (handleApiRequest_throws (js_or a (VStr "")) payload w).
    now rewrite Hh.
Qed.

(* ================================================================== *)
(** ** Further properties of the handler                               *)
(* ================================================================== *)

(** *** Resolved table names *)

Lemma trimEnd_cons c r :
  trimEnd (String c r)
  = match trimEnd r with
    | EmptyString => if isWs c then EmptyString else String c EmptyString
    | String d r' => String c (String d r')
    end.
Proof. reflexivity. Qed.

Lemma trimEnd_idem s : trimEnd (trimEnd s) = trimEnd s.
Proof.
  induction s as [| c r IH]; [reflexivity |].
  rewrite (trimEnd_cons c r).
  destruct (trimEnd r) as [| d r'] eqn:E.
  - destruct (isWs c) eqn:Hc; [reflexivity |].
    cbn [trimEnd]. now rewrite Hc.
  - now rewrite trimEnd_cons, IH.
Qed.

Lemma trimStart_clean c r :
  isWs c = false -> trimStart (String c r) = String c r.
Proof. intros H. cbn [trimStart]. now rewrite H. Qed.

Lemma trimStart_head s :
  trimStart s = "" \/ exists c r, trimStart s = String c r /\ isWs c = false.
Proof.
  induction s as [| c r IH]; [now left |].
  cbn [trimStart]. destruct (isWs c) eqn:Hc; [exact IH |].
  right. now exists c, r.
Qed.

Lemma trimEnd_head c r :
  isWs c = false -> exists r', trimEnd (String c r) = String c r'.
Proof.
  intros Hc. cbn [trimEnd].
  destruct (trimEnd r); [rewrite Hc |]; eauto.
Qed.

Lemma trim_idem s : trim (trim s) = trim s.
Proof.
  unfold trim.
  destruct (trimStart_head s) as [-> | (c & r & -> & Hc)]; [reflexivity |].
  destruct (trimEnd_head c r Hc) as [r' E].
  rewrite E, (trimStart_clean _ _ Hc), <- E.
  apply trimEnd_idem.
Qed.

Lemma str_mem_In k l : str_mem k l = true <-> In k l.
Proof.
  unfold str_mem. rewrite existsb_exists. split.
  - intros (x & Hin & Heq). apply String.eqb_eq in Heq. now subst.
  - intros Hin. exists k. split; [assumption | apply String.eqb_refl].
Qed.

(** X1. A table name that resolves is the trimmed [table_name] string of
    the payload; it is not empty, carries no white space at either end,
    and is none of the forbidden catalog names. *)
Theorem resolved_table_name_is_clean payload tn :
  resolveTableName payload = Normal (Some tn) ->
  (exists s, get_prop payload "table_name" = Normal (VStr s) /\ tn = trim s)
  /\ tn <> "" /\ isTrimmed tn /\ ~ In tn FORBIDDEN_TABLES.
Proof.
  unfold resolveTableName, isTrimmed.
  destruct (get_prop payload "table_name") as [v | e]; [| discriminate].
  destruct v as [| | b | q | s | l | kvs]; try discriminate.
  destruct (trim s =? "") eqn:Hblank; [discriminate |].
  destruct (str_mem (trim s) FORBIDDEN_TABLES) eqn:Hf; [discriminate |].
  intros [= <-].
  repeat split.
  - now exists s.
  - now apply String.eqb_neq.
  - apply trim_idem.
  - intros Hin. apply str_mem_In in Hin. congruence.
Qed.

(** *** No exception leaves the dispatcher *)

(** X2. [handleApiRequest] throws exactly when resolving the table name
    throws, that is when the payload is null or undefined or its
    [table_name] is neither nullish nor a string; whatever the action and
    the store do afterwards is answered, not thrown. *)
Theorem dispatcher_throws_only_on_table_name action payload w e :
  (fst (handleApiRequest action payload w) = Throw e
   <-> resolveTableName payload = Throw e)
  /\ (resolveTableName payload = Throw e ->
      payload = VNull \/ payload = VUndefined
      \/ exists v, get_prop payload "table_name" = Normal v
                   /\ not_nullish v = true
                   /\ forall s, v <> VStr s).
Proof.
  split; [split |].
  - apply handleApiRequest_throws.
  - intros H. unfold handleApiRequest, mbind, lift. now rewrite H.
  - unfold resolveTableName.
    destruct payload as [| | b | q | s | l | kvs]; cbn [get_prop];
      try discriminate; auto.
    destruct (lookup "table_name" kvs) as [| | b | q | s | l | kvs'] eqn:E;
      try discriminate;
      try (intros _; right; right; eexists;
           split; [reflexivity | split; [reflexivity | intros s' H'; discriminate]]).
    destruct (trim s =? ""); [discriminate |].
    destruct (str_mem (trim s) FORBIDDEN_TABLES); discriminate.
Qed.

(** X3. An action that is not one of the fourteen names of the [switch]
    (a string outside them, or any value that is not a string) is answered
    "Unknown action: ..." with the action as JavaScript prints it, and the
    world is left as it was.  The one value that cannot be printed, an
    object with a [toString] property of its own, raises a TypeError inside
    the [try], which is answered and logged. *)
Theorem unknown_action_is_answered tn action payload w :
  resolveTableName payload = Normal (Some tn) ->
  (forall a, action = VStr a -> ~ In a knownActions) ->
  handleApiRequest action payload w
  = if convertible action
    then (Normal (error ("Unknown action: " ++ ToString action)), w)
    else caught (TypeError "Cannot convert object to primitive value") w.
Proof.
  intros Hres Hunk.
  unfold handleApiRequest, mbind, lift, try_catch. rewrite Hres.
  assert (Hdefault :
    (let '(c, w1) :=
       match interpolate action with
       | Normal shown => ret (error ("Unknown action: " ++ shown)) w
       | Throw e => (Throw e, w)
       end in
     match c with
     | Normal x => (Normal x, w1)
     | Throw e =>
         (Normal (VObj [("error", VStr (err_message e))]),
          logged ("DB operation failed: " ++ err_message e) w1)
     end)
    = if convertible action
      then (Normal (error ("Unknown action: " ++ ToString action)), w)
      else caught (TypeError "Cannot convert object to primitive value") w).
  { unfold interpolate. destruct (convertible action); reflexivity. }
  destruct action as [| | b | q | a | l | kvs]; try exact Hdefault.
  specialize (Hunk a eq_refl).
  cbn [dispatch].
  repeat match goal with
  | |- context [if a =? ?lit then _ else _] =>
      let E := fresh "E" in
      destruct (a =? lit) eqn:E;
      [apply String.eqb_eq in E; subst a; exfalso; apply Hunk;
       cbv [knownActions]; simpl; tauto |]
  end.
  reflexivity.
Qed.

(** *** post *)

Lemma post_invalid tn kvs w :
  resolveTableName (VObj kvs) = Normal (Some tn) ->
  filter notAllowed (dataKeys kvs) <> [] ->
  handleApiRequest (VStr "post") (VObj kvs) w
  = (Normal (error ("Invalid columns: "
                    ++ join ", " (filter notAllowed (dataKeys kvs)))), w).
Proof.
  intros Hres Hinv.
  enter_case Hres.
  unfold case_post, mbind, lift, ret.
  rewrite normalizeJsonColumns_obj.
  cbn [Object_keys]. rewrite keys_normalized.
  fold (dataKeys kvs).
  destruct (filter notAllowed (dataKeys kvs)); [congruence | reflexivity].
Qed.

Lemma post_runs tn kvs w :
  resolveTableName (VObj kvs) = Normal (Some tn) ->
  filter notAllowed (dataKeys kvs) = [] ->
  handleApiRequest (VStr "post") (VObj kvs) w
  = match db_exec (Run (postStmt tn kvs)) (store w) with
    | (Normal _, st') => (Normal VNull, called (Run (postStmt tn kvs)) st' w)
    | (Throw e, st') => caught e (called (Run (postStmt tn kvs)) st' w)
    end.
Proof.
  intros Hres Hvalid.
  enter_case Hres.
  unfold case_post, mbind, lift, ret.
  rewrite normalizeJsonColumns_obj.
  cbn [Object_keys]. rewrite keys_normalized.
  fold (dataKeys kvs). rewrite Hvalid.
  cbn [List.length Nat.eqb negb].
  rewrite mapC_get_prop_obj.
  unfold db_call, bind, prepare. cbn [sql].
  fold (postStmt tn kvs).
  destruct (db_exec (Run (postStmt tn kvs)) (store w)) as [[r | e] st'];
    reflexivity.
Qed.

Lemma filter_notAllowed_In k ks :
  In k (filter notAllowed ks) <-> In k ks /\ ~ In k allowedColumns.
Proof.
  rewrite filter_In. unfold notAllowed.
  rewrite negb_true_iff, <- not_true_iff_false, str_mem_In. tauto.
Qed.

(** X4. A [post] with any key outside the allow-list (other than
    [table_name]) is refused: the error lists exactly the keys that are
    not columns, in payload order, and the world is left as it was. *)
Theorem post_rejects_invalid_columns tn kvs k w :
  resolveTableName (VObj kvs) = Normal (Some tn) ->
  In k (dataKeys kvs) -> ~ In k allowedColumns ->
  handleApiRequest (VStr "post") (VObj kvs) w
  = (Normal (error ("Invalid columns: "
                    ++ join ", " (filter notAllowed (dataKeys kvs)))), w)
  /\ forall k', In k' (filter notAllowed (dataKeys kvs))
                <-> In k' (dataKeys kvs) /\ ~ In k' allowedColumns.
Proof.
  intros Hres Hin Hbad. split.
  - apply (post_invalid tn); [assumption |].
    intros Hnil.
    assert (H : In k (filter notAllowed (dataKeys kvs)))
      by now apply filter_notAllowed_In.
    now rewrite Hnil in H.
  - intros k'. apply filter_notAllowed_In.
Qed.

(** X5. A [post] whose keys are all columns runs exactly one INSERT: its
    columns are the payload's keys other than [table_name], in payload
    order, and its bound values are the values of those keys after
    [normalizeJsonColumns], in the same order.  It answers [null] when the
    store accepts the statement, and the store's message when it throws. *)
Theorem post_inserts_once tn kvs w :
  resolveTableName (VObj kvs) = Normal (Some tn) ->
  (forall k, In k (dataKeys kvs) -> In k allowedColumns) ->
  let stmt :=
    {| sql := "INSERT INTO " ++ tn ++ " (" ++ join "," (dataKeys kvs)
              ++ ") VALUES (" ++ placeholders (dataKeys kvs) ++ ")";
       binds := map (fun k => lookup k (normalized kvs)) (dataKeys kvs) |} in
  calls (snd (handleApiRequest (VStr "post") (VObj kvs) w))
  = (calls w ++ [Run stmt])%list
  /\ (forall r st', db_exec (Run stmt) (store w) = (Normal r, st') ->
        handleApiRequest (VStr "post") (VObj kvs) w
        = (Normal VNull, called (Run stmt) st' w))
  /\ (forall e st', db_exec (Run stmt) (store w) = (Throw e, st') ->
        fst (handleApiRequest (VStr "post") (VObj kvs) w)
        = Normal (error (err_message e))).
Proof.
  intros Hres Hall stmt.
  assert (Hvalid : filter notAllowed (dataKeys kvs) = []).
  { destruct (filter notAllowed (dataKeys kvs)) as [| k ks] eqn:E;
      [reflexivity |].
    assert (H : In k (filter notAllowed (dataKeys kvs)))
      by (rewrite E; now left).
    apply filter_notAllowed_In in H as [H1 H2]. now apply Hall in H1. }
  rewrite (post_runs _ _ _ Hres Hvalid).
  fold stmt. change (postStmt tn kvs) with stmt.
  repeat split.
  - destruct (db_exec (Run stmt) (store w)) as [[r | e] st']; reflexivity.
  - intros r st' ->. reflexivity.
  - intros e st' ->. reflexivity.
Qed.

(** *** delete *)

Lemma append_empty_r (a : string) : a ++ "" = a.
Proof. induction a as [| c a IH]; simpl; [reflexivity | now rewrite IH]. Qed.

Lemma delete_invalid tn kvs w :
  resolveTableName (VObj kvs) = Normal (Some tn) ->
  filter notAllowed (dataKeys kvs) <> [] ->
  handleApiRequest (VStr "delete") (VObj kvs) w
  = (Normal (error ("Invalid columns: "
                    ++ join ", " (filter notAllowed (dataKeys kvs)))), w).
Proof.
  intros Hres Hinv.
  enter_case Hres.
  unfold case_delete, mbind, lift, ret.
  cbn [Object_keys]. fold (dataKeys kvs).
  destruct (filter notAllowed (dataKeys kvs)); [congruence | reflexivity].
Qed.

(** The world in which a valid [delete] runs its statement. *)
Lemma delete_runs tn kvs w :
  resolveTableName (VObj kvs) = Normal (Some tn) ->
  filter notAllowed (dataKeys kvs) = [] ->
  let w1 := if (List.length (dataKeys kvs) =? 0)%nat
            then logged ("DELETE ALL from " ++ tn) w else w in
  handleApiRequest (VStr "delete") (VObj kvs) w
  = match db_exec (Run (deleteStmt tn kvs)) (store w) with
    | (Normal r, st') =>
        let w' := called (Run (deleteStmt tn kvs)) st' w1 in
        match get_prop r "changes" with
        | Normal ch =>
            (Normal (VObj [("deleted", js_nullish ch (num_of_Z 0))]), w')
        | Throw e => caught e w'
        end
    | (Throw e, st') => caught e (called (Run (deleteStmt tn kvs)) st' w1)
    end.
Proof.
  intros Hres Hvalid w1.
  enter_case Hres.
  unfold case_delete, mbind, lift, ret, errDelegate.
  cbn [Object_keys]. fold (dataKeys kvs). rewrite Hvalid.
  cbn [List.length Nat.eqb negb].
  unfold deleteStmt, w1.
  destruct (dataKeys kvs) as [| k ks] eqn:Hk.
  - cbn [List.length Nat.eqb map]. unfold db_call, bind, prepare, logged.
    cbn [sql store calls diagnostics].
    rewrite append_empty_r.
    destruct (db_exec _ (store w)) as [[r | e] st']; [| reflexivity].
    destruct (get_prop r "changes"); reflexivity.
  - cbn [List.length Nat.eqb].
    rewrite mapC_get_prop_obj.
    unfold db_call, bind, prepare. cbn [sql].
    destruct (db_exec _ (store w)) as [[r | e] st']; [| reflexivity].
    destruct (get_prop r "changes"); reflexivity.
Qed.

(** X6. A [delete] with a key that is not a column is refused and
    touches nothing: an unknown filter never turns the request into a
    wider delete. *)
Theorem delete_rejects_invalid_columns tn kvs k w :
  resolveTableName (VObj kvs) = Normal (Some tn) ->
  In k (dataKeys kvs) -> ~ In k allowedColumns ->
  handleApiRequest (VStr "delete") (VObj kvs) w
  = (Normal (error ("Invalid columns: "
                    ++ join ", " (filter notAllowed (dataKeys kvs)))), w).
Proof.
  intros Hres Hin Hbad.
  apply (delete_invalid tn); [assumption |].
  intros Hnil.
  assert (H : In k (filter notAllowed (dataKeys kvs)))
    by now apply filter_notAllowed_In.
  now rewrite Hnil in H.
Qed.

(** X7. A [delete] whose payload has no key but [table_name] logs
    "DELETE ALL from <table>" and then runs [DELETE FROM <table>] with no
    WHERE clause and no bound value, whatever the store answers. *)
Theorem delete_without_filter_deletes_all tn kvs w :
  resolveTableName (VObj kvs) = Normal (Some tn) ->
  dataKeys kvs = [] ->
  let w' := snd (handleApiRequest (VStr "delete") (VObj kvs) w) in
  calls w' = (calls w ++ [Run {| sql := "DELETE FROM " ++ tn; binds := [] |}])%list
  /\ exists more,
       diagnostics w'
       = (diagnostics w ++ ("DELETE ALL from " ++ tn)%string :: more)%list.
Proof.
  intros Hres Hk w'. subst w'.
  rewrite (delete_runs _ _ _ Hres) by now rewrite Hk.
  unfold deleteStmt. rewrite Hk. cbn [List.length Nat.eqb map].
  rewrite append_empty_r.
  destruct (db_exec _ (store w)) as [[r | e] st'].
  - cbv zeta. destruct (get_prop r "changes").
    + split; [reflexivity |]. exists []. reflexivity.
    + split; [reflexivity |]. eexists. cbn. rewrite <- app_assoc. reflexivity.
  - split; [reflexivity |]. eexists. cbn. rewrite <- app_assoc. reflexivity.
Qed.

(** X8. A [delete] with column filters runs one DELETE whose WHERE clause
    is the conjunction of [k = ?] over the payload's keys, bound to their
    values in the same order; it logs nothing of its own, and it reports
    the store's [changes], or 0 when the store reports none. *)
Theorem delete_with_filters tn kvs w r st' ch :
  resolveTableName (VObj kvs) = Normal (Some tn) ->
  (forall k, In k (dataKeys kvs) -> In k allowedColumns) ->
  dataKeys kvs <> [] ->
  let stmt :=
    {| sql := "DELETE FROM " ++ tn ++ " WHERE "
              ++ join " AND " (map (fun k => k ++ " = ?") (dataKeys kvs));
       binds := map (fun k => lookup k kvs) (dataKeys kvs) |} in
  db_exec (Run stmt) (store w) = (Normal r, st') ->
  get_prop r "changes" = Normal ch ->
  handleApiRequest (VStr "delete") (VObj kvs) w
  = (Normal (VObj [("deleted", if not_nullish ch then ch else num_of_Z 0)]),
     called (Run stmt) st' w).
Proof.
  intros Hres Hall Hne stmt Hdb Hch.
  assert (Hvalid : filter notAllowed (dataKeys kvs) = []).
  { destruct (filter notAllowed (dataKeys kvs)) as [| k ks] eqn:E;
      [reflexivity |].
    assert (H : In k (filter notAllowed (dataKeys kvs)))
      by (rewrite E; now left).
    apply filter_notAllowed_In in H as [H1 H2]. now apply Hall in H1. }
  rewrite (delete_runs _ _ _ Hres Hvalid).
  assert (Hs : deleteStmt tn kvs = stmt).
  { unfold deleteStmt, stmt.
    destruct (dataKeys kvs); [congruence | reflexivity]. }
  rewrite Hs, Hdb. cbv zeta. rewrite Hch.
  destruct (dataKeys kvs); [congruence | reflexivity].
Qed.

(** *** get *)

Lemma getFilters_options kvs :
  filter (fun k => negb (str_mem k allowedQueryOptions))
         (map fst (remove_key "table_name" kvs))
  = getFilters kvs.
Proof.
  unfold getFilters.
  induction kvs as [| [k v] rest IH]; [reflexivity |].
  cbn [remove_key filter fst map].
  destruct (k =? "table_name") eqn:E; cbn [negb].
  - apply String.eqb_eq in E. subst k.
    cbn [map filter]. exact IH.
  - cbn [map filter fst]. fold (remove_key "table_name" rest).
    destruct (negb (str_mem k allowedQueryOptions)); [f_equal |]; exact IH.
Qed.

Lemma getFilters_not_table_name k kvs :
  In k (getFilters kvs) -> k <> "table_name".
Proof.
  unfold getFilters. rewrite filter_In. intros [_ H] ->. discriminate.
Qed.

Lemma getOrderBy_code kvs :
  (if arr_includes allowedColumns (lookup "orderby" kvs)
   then ToString (lookup "orderby" kvs) else "id")
  = getOrderBy kvs.
Proof.
  unfold getOrderBy. destruct (lookup "orderby" kvs); try reflexivity.
Qed.

Lemma get_invalid tn kvs k w :
  resolveTableName (VObj kvs) = Normal (Some tn) ->
  find notAllowed (getFilters kvs) = Some k ->
  handleApiRequest (VStr "get") (VObj kvs) w
  = (Normal (error ("Invalid column: " ++ k)), w).
Proof.
  intros Hres Hfind.
  enter_case Hres.
  unfold case_get, mbind, lift, ret.
  cbn [restOptions Object_keys get_prop].
  fold (remove_key "table_name" kvs).
  now rewrite getFilters_options, Hfind.
Qed.

Lemma get_conflict tn kvs w :
  resolveTableName (VObj kvs) = Normal (Some tn) ->
  find notAllowed (getFilters kvs) = None ->
  not_nullish (lookup "minId" kvs) && not_nullish (lookup "offset" kvs) = true ->
  handleApiRequest (VStr "get") (VObj kvs) w
  = (Normal (error "Cannot use both minId and offset"), w).
Proof.
  intros Hres Hfind Hboth.
  enter_case Hres.
  unfold case_get, mbind, lift, ret.
  cbn [restOptions Object_keys get_prop].
  fold (remove_key "table_name" kvs).
  rewrite getFilters_options, Hfind.
  rewrite !(lookup_remove_other "table_name") by discriminate.
  now rewrite Hboth.
Qed.

Lemma get_runs tn kvs w :
  resolveTableName (VObj kvs) = Normal (Some tn) ->
  find notAllowed (getFilters kvs) = None ->
  not_nullish (lookup "minId" kvs) && not_nullish (lookup "offset" kvs) = false ->
  handleApiRequest (VStr "get") (VObj kvs) w
  = match db_exec (All (getStmt tn kvs)) (store w) with
    | (Normal r, st') =>
        let w' := called (All (getStmt tn kvs)) st' w in
        match get_prop r "results" with
        | Normal rs => (Normal (VObj [("rows", js_or rs (VArr []))]), w')
        | Throw e => caught e w'
        end
    | (Throw e, st') => caught e (called (All (getStmt tn kvs)) st' w)
    end.
Proof.
  intros Hres Hfind Hboth.
  enter_case Hres.
  unfold case_get, mbind, lift, ret.
  cbn [restOptions Object_keys get_prop].
  fold (remove_key "table_name" kvs).
  rewrite getFilters_options, Hfind.
  rewrite mapC_get_prop_obj.
  rewrite !(lookup_remove_other "table_name") by discriminate.
  rewrite Hboth.
  rewrite getOrderBy_code. fold (getOrder kvs).
  assert (Hvals : map (fun k => lookup k (remove_key "table_name" kvs))
                      (getFilters kvs)
                  = map (fun k => lookup k kvs) (getFilters kvs)).
  { apply map_ext_in. intros k Hk.
    apply lookup_remove_other. now apply getFilters_not_table_name in Hk. }
  rewrite Hvals.
  assert (Hstmt : forall conds params,
             conds = getConditions kvs ->
             params = List.app (map (fun k => lookup k kvs) (getFilters kvs))
                        (match getBound kvs with Some v => [v] | None => [] end) ->
             bind (prepare
                     (((if negb (List.length conds =? 0)%nat
                        then ("SELECT * FROM " ++ tn) ++ " WHERE "
                             ++ join " AND " conds
                        else "SELECT * FROM " ++ tn)
                       ++ " ORDER BY " ++ getOrderBy kvs ++ " " ++ getOrder kvs)
                      ++ " LIMIT " ++ dec (getLimit (lookup "limit" kvs))))
                  params
             = getStmt tn kvs).
  { intros conds params -> ->.
    unfold getStmt, bind, prepare. cbn [sql]. f_equal.
    destruct (getConditions kvs) as [| c cs].
    - cbn [List.length Nat.eqb negb].
      rewrite !append_assoc. reflexivity.
    - cbn [List.length Nat.eqb negb].
      rewrite !append_assoc. reflexivity. }
  destruct (not_nullish (lookup "offset" kvs)) eqn:Hoff;
    [| destruct (not_nullish (lookup "minId" kvs)) eqn:Hmin];
    (erewrite Hstmt
       by (unfold getConditions, getBound;
           rewrite Hoff, ?Hmin, ?app_nil_r; reflexivity);
     unfold db_call;
     destruct (db_exec (All (getStmt tn kvs)) (store w)) as [[r | e] st'];
     [fold (called (All (getStmt tn kvs)) st' w);
      destruct (get_prop r "results"); reflexivity
     | reflexivity]).
Qed.

Lemma find_notAllowed_none ks :
  find notAllowed ks = None <-> (forall k, In k ks -> In k allowedColumns).
Proof.
  split.
  - intros Hnone k Hin.
    pose proof (find_none _ _ Hnone k Hin) as H.
    unfold notAllowed in H. apply negb_false_iff in H.
    now apply str_mem_In.
  - intros Hall. induction ks as [| k ks IH]; [reflexivity |].
    cbn [find]. unfold notAllowed at 1.
    assert (Hk : str_mem k allowedColumns = true)
      by (apply str_mem_In, Hall; now left).
    rewrite Hk. cbn [negb]. apply IH.
    intros k' Hin. apply Hall. now right.
Qed.

Lemma limit_spec_unique v n n' :
  limit_spec v n -> limit_spec v n' -> n' = n.
Proof.
  intros H H'.
  destruct H as [q Hi Hr | q Hi Hr | v Hd];
    inversion H' as [q' Hi' Hr' | q' Hi' Hr' | v' Hd']; subst;
    try reflexivity; try lia.
  - specialize (Hd' q eq_refl Hi). lia.
  - specialize (Hd' q eq_refl Hi). lia.
  - specialize (Hd q' eq_refl Hi'). lia.
  - specialize (Hd q' eq_refl Hi'). lia.
Qed.

(** C5. For every [get] the row limit [n] is fixed by [payload.limit]
    alone: [payload.limit] when it is an integer in 1..500, 500 when it
    is an integer above 500, and 100 in every other case.  A [get] that
    passes validation (every filter key is a column, and [minId] and
    [offset] are not both given) issues exactly one query, the SELECT
    written out below, which ends in [LIMIT n]; a [get] that fails
    validation issues none. *)
Theorem get_limit tn kvs w :
  resolveTableName (VObj kvs) = Normal (Some tn) ->
  exists n,
    limit_spec (lookup "limit" kvs) n
    /\ (forall n', limit_spec (lookup "limit" kvs) n' -> n' = n)
    /\ ((forall k, In k (getFilters kvs) -> In k allowedColumns) ->
        not_nullish (lookup "minId" kvs) && not_nullish (lookup "offset" kvs)
        = false ->
        calls (snd (handleApiRequest (VStr "get") (VObj kvs) w))
        = (calls w
           ++ [All {| sql := ("SELECT * FROM " ++ tn
                              ++ (match getConditions kvs with
                                  | [] => ""
                                  | cs => " WHERE " ++ join " AND " cs
                                  end)
                              ++ " ORDER BY " ++ getOrderBy kvs
                              ++ " " ++ getOrder kvs)
                             ++ " LIMIT " ++ dec n;
                      binds := List.app
                                 (map (fun k => lookup k kvs) (getFilters kvs))
                                 (match getBound kvs with
                                  | Some v => [v]
                                  | None => []
                                  end) |}])%list)
    /\ ((exists k, In k (getFilters kvs) /\ ~ In k allowedColumns)
        \/ not_nullish (lookup "minId" kvs) && not_nullish (lookup "offset" kvs)
           = true ->
        calls (snd (handleApiRequest (VStr "get") (VObj kvs) w)) = calls w).
Proof.
  intros Hres.
  exists (getLimit (lookup "limit" kvs)).
  split; [apply getLimit_spec |].
  split; [intros n' Hn'; exact (limit_spec_unique _ _ _ (getLimit_spec _) Hn') |].
  split.
  - intros Hall Hboth.
    rewrite (get_runs _ _ _ Hres (proj2 (find_notAllowed_none _) Hall) Hboth).
    assert (Hs : getStmt tn kvs
                 = {| sql := ("SELECT * FROM " ++ tn
                              ++ (match getConditions kvs with
                                  | [] => ""
                                  | cs => " WHERE " ++ join " AND " cs
                                  end)
                              ++ " ORDER BY " ++ getOrderBy kvs
                              ++ " " ++ getOrder kvs)
                             ++ " LIMIT " ++ dec (getLimit (lookup "limit" kvs));
                      binds := List.app
                                 (map (fun k => lookup k kvs) (getFilters kvs))
                                 (match getBound kvs with
                                  | Some v => [v]
                                  | None => []
                                  end) |}).
    { unfold getStmt. f_equal. now rewrite !append_assoc. }
    rewrite Hs.
    match goal with
    | |- context [db_exec ?c ?st] => destruct (db_exec c st) as [[r | e] st']
    end; [cbv zeta; destruct (get_prop r "results") |]; reflexivity.
  - intros [(k & Hin & Hbad) | Hboth].
    + destruct (find notAllowed (getFilters kvs)) as [k' |] eqn:Hfind.
      * now rewrite (get_invalid _ _ _ _ Hres Hfind).
      * pose proof (proj1 (find_notAllowed_none _) Hfind k Hin). contradiction.
    + destruct (find notAllowed (getFilters kvs)) as [k' |] eqn:Hfind.
      * now rewrite (get_invalid _ _ _ _ Hres Hfind).
      * now rewrite (get_conflict _ _ _ Hres Hfind Hboth).
Qed.

(** X9. A [get] with an option key that is neither a query option nor a
    column is refused with "Invalid column: k", [k] being the first such
    key in payload order (later ones are not reported); no query is
    issued, and this takes precedence over the minId/offset conflict. *)
Theorem get_rejects_unknown_filter tn kvs before k after w :
  resolveTableName (VObj kvs) = Normal (Some tn) ->
  getFilters kvs = (before ++ k :: after)%list ->
  (forall k', In k' before -> In k' allowedColumns) ->
  ~ In k allowedColumns ->
  handleApiRequest (VStr "get") (VObj kvs) w
  = (Normal (error ("Invalid column: " ++ k)), w).
Proof.
  intros Hres Hsplit Hbefore Hk.
  apply (get_invalid tn); [assumption |].
  rewrite Hsplit. clear Hsplit.
  induction before as [| b bs IH].
  - cbn [app find]. unfold notAllowed.
    destruct (str_mem k allowedColumns) eqn:E; [| reflexivity].
    apply str_mem_In in E. contradiction.
  - cbn [app find]. unfold notAllowed at 1.
    assert (Hb : str_mem b allowedColumns = true)
      by (apply str_mem_In, Hbefore; now left).
    rewrite Hb. cbn [negb].
    apply IH. intros k' Hin. apply Hbefore. now right.
Qed.

(** X10. A [get] whose filters are all columns and that gives both
    [minId] and [offset] (neither null) is refused with "Cannot use both
    minId and offset" and issues no query. *)
Theorem get_rejects_minId_with_offset tn kvs w :
  resolveTableName (VObj kvs) = Normal (Some tn) ->
  (forall k, In k (getFilters kvs) -> In k allowedColumns) ->
  not_nullish (lookup "minId" kvs) = true ->
  not_nullish (lookup "offset" kvs) = true ->
  handleApiRequest (VStr "get") (VObj kvs) w
  = (Normal (error "Cannot use both minId and offset"), w).
Proof.
  intros Hres Hall Hmin Hoff.
  apply (get_conflict tn); [assumption | now apply find_notAllowed_none |].
  now rewrite Hmin, Hoff.
Qed.

Lemma getOrderBy_allowed kvs : In (getOrderBy kvs) allowedColumns.
Proof.
  unfold getOrderBy.
  destruct (lookup "orderby" kvs) as [| | b | q | s | l | o];
    try (simpl; tauto).
  destruct (str_mem s allowedColumns) eqn:E.
  - now apply str_mem_In.
  - simpl; tauto.
Qed.

Lemma getOrder_cases kvs : getOrder kvs = "ASC" \/ getOrder kvs = "DESC".
Proof. unfold getOrder. destruct (is_str _ _); auto. Qed.

Lemma get_calls_shape tn kvs w :
  resolveTableName (VObj kvs) = Normal (Some tn) ->
  calls (snd (handleApiRequest (VStr "get") (VObj kvs) w)) = calls w
  \/ (calls (snd (handleApiRequest (VStr "get") (VObj kvs) w))
      = (calls w
         ++ [All {| sql := "SELECT * FROM " ++ tn
                           ++ (match getConditions kvs with
                               | [] => ""
                               | cs => " WHERE " ++ join " AND " cs
                               end)
                           ++ " ORDER BY " ++ getOrderBy kvs ++ " " ++ getOrder kvs
                           ++ " LIMIT " ++ dec (getLimit (lookup "limit" kvs));
                    binds := List.app
                               (map (fun k => lookup k kvs) (getFilters kvs))
                               (match getBound kvs with
                                | Some v => [v]
                                | None => []
                                end) |}])%list
      /\ (forall k, In k (getFilters kvs) -> In k allowedColumns)
      /\ In (getOrderBy kvs) allowedColumns
      /\ (getOrder kvs = "ASC" \/ getOrder kvs = "DESC")).
Proof.
  intros Hres.
  destruct (find notAllowed (getFilters kvs)) as [k |] eqn:Hfind.
  - left. now rewrite (get_invalid _ _ _ _ Hres Hfind).
  - destruct (not_nullish (lookup "minId" kvs)
              && not_nullish (lookup "offset" kvs)) eqn:Hboth.
    + left. now rewrite (get_conflict _ _ _ Hres Hfind Hboth).
    + right. rewrite (get_runs _ _ _ Hres Hfind Hboth).
      fold (getStmt tn kvs).
      split; [| split; [now apply find_notAllowed_none
                       | split; [apply getOrderBy_allowed | apply getOrder_cases]]].
      destruct (db_exec (All (getStmt tn kvs)) (store w)) as [[r | e] st'];
        [cbv zeta; destruct (get_prop r "results") |]; reflexivity.
Qed.

(** X11. Whatever the payload, a [get] issues no call or exactly one
    SELECT, and in that SELECT every interpolated identifier other than
    the table name is a column of the allow-list: each filter key, and
    the ORDER BY column (which falls back to [id]); the direction is ASC
    or DESC. *)
Theorem get_interpolates_only_columns tn kvs w :
  resolveTableName (VObj kvs) = Normal (Some tn) ->
  calls (snd (handleApiRequest (VStr "get") (VObj kvs) w)) = calls w
  \/ (calls (snd (handleApiRequest (VStr "get") (VObj kvs) w))
      = (calls w
         ++ [All {| sql := "SELECT * FROM " ++ tn
                           ++ (match getConditions kvs with
                               | [] => ""
                               | cs => " WHERE " ++ join " AND " cs
                               end)
                           ++ " ORDER BY " ++ getOrderBy kvs ++ " " ++ getOrder kvs
                           ++ " LIMIT " ++ dec (getLimit (lookup "limit" kvs));
                    binds := List.app
                               (map (fun k => lookup k kvs) (getFilters kvs))
                               (match getBound kvs with
                                | Some v => [v]
                                | None => []
                                end) |}])%list
      /\ (forall k, In k (getFilters kvs) -> In k allowedColumns)
      /\ In (getOrderBy kvs) allowedColumns
      /\ (getOrder kvs = "ASC" \/ getOrder kvs = "DESC")).
Proof. apply get_calls_shape. Qed.

(** X12. Keyset pagination: a [get] without column filters that gives
    exactly one of [offset] and [minId] selects the rows strictly beyond
    that value on the ORDER BY column -- greater when ascending, smaller
    when [order] is "desc" -- and binds the value as its only
    parameter. *)
Theorem get_keyset_bound tn kvs v w :
  resolveTableName (VObj kvs) = Normal (Some tn) ->
  getFilters kvs = [] ->
  getBound kvs = Some v ->
  not_nullish (lookup "minId" kvs) && not_nullish (lookup "offset" kvs) = false ->
  let cmp := if is_str (lookup "order" kvs) "desc" then "<" else ">" in
  let dir := if is_str (lookup "order" kvs) "desc" then "DESC" else "ASC" in
  calls (snd (handleApiRequest (VStr "get") (VObj kvs) w))
  = (calls w
     ++ [All {| sql := "SELECT * FROM " ++ tn ++ " WHERE " ++ getOrderBy kvs
                       ++ " " ++ cmp ++ " ? ORDER BY " ++ getOrderBy kvs
                       ++ " " ++ dir
                       ++ " LIMIT " ++ dec (getLimit (lookup "limit" kvs));
                binds := [v] |}])%list.
Proof.
  intros Hres Hnof Hbound Hboth cmp dir.
  assert (Hfind : find notAllowed (getFilters kvs) = None)
    by now rewrite Hnof.
  rewrite (get_runs _ _ _ Hres Hfind Hboth).
  assert (Hs : getStmt tn kvs
               = {| sql := "SELECT * FROM " ++ tn ++ " WHERE " ++ getOrderBy kvs
                           ++ " " ++ cmp ++ " ? ORDER BY " ++ getOrderBy kvs
                           ++ " " ++ dir
                           ++ " LIMIT " ++ dec (getLimit (lookup "limit" kvs));
                    binds := [v] |}).
  { unfold getStmt, getConditions. rewrite Hnof, Hbound.
    cbn [map List.app join]. unfold getOrder, cmp, dir.
    f_equal. f_equal.
    destruct (is_str (lookup "order" kvs) "desc"); cbn [String.eqb Ascii.eqb Bool.eqb];
      rewrite !append_assoc; reflexivity. }
  rewrite Hs.
  match goal with
  | |- context [db_exec ?c ?st] => destruct (db_exec c st) as [[r | e] st']
  end; [cbv zeta; destruct (get_prop r "results") |]; reflexivity.
Qed.

(** *** Placeholders and bound values *)

Lemma prefix_app n b : prefix n (n ++ b) = true.
Proof.
  induction n as [| c n IH]; [apply prefix_nil_l |].
  cbn [append]. now apply prefix_cons_same.
Qed.

Lemma includes_infix a b n s :
  s = a ++ n ++ b -> includes s n = true.
Proof.
  intros ->. induction a as [| c a IH].
  - change ("" ++ n ++ b) with (n ++ b).
    apply includes_prefix, prefix_app.
  - change (String c a ++ n ++ b) with (String c (a ++ n ++ b)).
    now apply includes_cons.
Qed.

Lemma qmarks_app a b : qmarks (a ++ b) = (qmarks a + qmarks b)%nat.
Proof.
  induction a as [| c a IH]; [reflexivity |].
  cbn [append qmarks]. rewrite IH. lia.
Qed.

Lemma qmarks_join sep xs :
  qmarks sep = 0%nat ->
  qmarks (join sep xs) = list_sum (map qmarks xs).
Proof.
  intros Hsep.
  induction xs as [| x xs IH]; [reflexivity |].
  destruct xs as [| y ys].
  - simpl. lia.
  - change (join sep (x :: y :: ys)) with (x ++ sep ++ join sep (y :: ys)).
    rewrite !qmarks_app, IH, Hsep.
    change (list_sum (map qmarks (x :: y :: ys)))
      with (qmarks x + list_sum (map qmarks (y :: ys)))%nat.
    lia.
Qed.

Lemma qmarks_placeholders ks : qmarks (placeholders ks) = List.length ks.
Proof.
  unfold placeholders. rewrite qmarks_join by reflexivity.
  induction ks as [| k ks IH]; [reflexivity |].
  cbn [map List.length].
  change (list_sum (qmarks "?" :: map qmarks (map (fun _ => "?") ks)))
    with (1 + list_sum (map qmarks (map (fun _ => "?") ks)))%nat.
  now rewrite IH.
Qed.

Lemma qmarks_column k : In k allowedColumns -> qmarks k = 0%nat.
Proof.
  cbv [allowedColumns]. simpl.
  intros H.
  repeat (destruct H as [<- | H]; [reflexivity |]).
  contradiction.
Qed.

Lemma qmarks_columns sep ks :
  qmarks sep = 0%nat ->
  (forall k, In k ks -> In k allowedColumns) ->
  qmarks (join sep ks) = 0%nat.
Proof.
  intros Hsep Hall. rewrite qmarks_join by assumption.
  induction ks as [| k ks IH]; [reflexivity |].
  cbn [map].
  change (list_sum (qmarks k :: map qmarks ks))
    with (qmarks k + list_sum (map qmarks ks))%nat.
  rewrite (qmarks_column k) by (apply Hall; now left).
  apply IH. intros k' Hin. apply Hall. now right.
Qed.

Lemma qmarks_assignments sep ks :
  qmarks sep = 0%nat ->
  (forall k, In k ks -> In k allowedColumns) ->
  qmarks (join sep (map (fun k => k ++ " = ?") ks)) = List.length ks.
Proof.
  intros Hsep Hall. rewrite qmarks_join by assumption.
  induction ks as [| k ks IH]; [reflexivity |].
  cbn [map List.length].
  change (list_sum (qmarks (k ++ " = ?")
                    :: map qmarks (map (fun k0 => k0 ++ " = ?") ks)))
    with (qmarks (k ++ " = ?")
          + list_sum (map qmarks (map (fun k0 => k0 ++ " = ?") ks)))%nat.
  rewrite qmarks_app, (qmarks_column k) by (apply Hall; now left).
  rewrite IH by (intros k' Hin; apply Hall; now right).
  reflexivity.
Qed.

Lemma insertKeys_allowed kvs k : In k (insertKeys kvs) -> In k allowedColumns.
Proof.
  unfold insertKeys. rewrite filter_In. intros [_ H]. now apply str_mem_In.
Qed.

Lemma valid_keys ks :
  filter notAllowed ks = [] -> forall k, In k ks -> In k allowedColumns.
Proof.
  intros Hnil k Hin.
  destruct (str_mem k allowedColumns) eqn:E; [now apply str_mem_In |].
  assert (H : In k (filter notAllowed ks)).
  { apply filter_In. split; [assumption |]. unfold notAllowed. now rewrite E. }
  now rewrite Hnil in H.
Qed.

Lemma keys_valid ks :
  (forall k, In k ks -> In k allowedColumns) -> filter notAllowed ks = [].
Proof.
  intros Hall.
  destruct (filter notAllowed ks) as [| k rest] eqn:E; [reflexivity |].
  assert (H : In k (filter notAllowed ks)) by (rewrite E; now left).
  apply filter_notAllowed_In in H as [H1 H2]. now apply Hall in H1.
Qed.

Lemma qmarks_insert tn keys :
  qmarks tn = 0%nat ->
  (forall k, In k keys -> In k allowedColumns) ->
  qmarks ("INSERT INTO " ++ tn ++ " (" ++ join "," keys
          ++ ") VALUES (" ++ placeholders keys ++ ")")
  = List.length keys.
Proof.
  intros Htn Hall.
  rewrite !qmarks_app, Htn, qmarks_placeholders.
  rewrite (qmarks_columns "," keys) by (assumption || reflexivity).
  cbn [qmarks Ascii.eqb Bool.eqb]. lia.
Qed.

(** X13. Inserts bind one value per placeholder: for a table name free
    of [?], the INSERT of a valid [post] and every INSERT of a
    [batch_post] over objects has exactly as many [?] as bound values. *)
Theorem insert_placeholders_match_binds tn w :
  qmarks tn = 0%nat ->
  (forall kvs,
      resolveTableName (VObj kvs) = Normal (Some tn) ->
      (forall k, In k (dataKeys kvs) -> In k allowedColumns) ->
      exists s,
        calls (snd (handleApiRequest (VStr "post") (VObj kvs) w))
        = (calls w ++ [Run s])%list
        /\ qmarks (sql s) = List.length (binds s))
  /\ (forall payload recs,
        resolveTableName payload = Normal (Some tn) ->
        get_prop payload "data" = Normal (VArr (map VObj recs)) ->
        exists ss,
          calls (snd (handleApiRequest (VStr "batch_post") payload w))
          = (calls w ++ [Batch ss])%list
          /\ List.length ss = List.length recs
          /\ Forall (fun s => qmarks (sql s) = List.length (binds s)) ss).
Proof.
  intros Htn. split.
  - intros kvs Hres Hall.
    exists (postStmt tn kvs). split.
    + rewrite (post_runs _ _ _ Hres (keys_valid _ Hall)).
      destruct (db_exec (Run (postStmt tn kvs)) (store w)) as [[r | e] st'];
        reflexivity.
    + unfold postStmt. cbn [sql binds].
      rewrite length_map. now apply qmarks_insert.
  - intros payload recs Hres Hdata.
    exists (map (insertStmt tn) recs). split; [| split].
    + enter_case Hres.
      unfold case_batch_post, mbind, lift, ret, db_call.
      rewrite Hdata, mapC_batchInsert_objs.
      destruct (db_exec _ (store w)) as [[results | e] st']; [| reflexivity].
      destruct (get_length results); reflexivity.
    + apply length_map.
    + apply Forall_forall. intros s Hin.
      apply in_map_iff in Hin as (kvs & <- & _).
      unfold insertStmt. cbn [sql binds].
      rewrite length_map.
      apply qmarks_insert; [assumption | apply insertKeys_allowed].
Qed.

Lemma putKeys_valid_allowed kvs :
  filter notAllowed (putKeys kvs) = [] ->
  forall k, In k (putKeys kvs) -> In k allowedColumns.
Proof. apply valid_keys. Qed.

(** X14. Updates bind one value per placeholder: for a table name free
    of [?], the UPDATE of a valid [put] has exactly as many [?] as bound
    values -- one per assigned column and one for the WHERE clause -- and
    always refreshes [v2]. *)
Theorem put_placeholders_match_binds tn kvs w :
  qmarks tn = 0%nat ->
  resolveTableName (VObj kvs) = Normal (Some tn) ->
  not_nullish (lookup "id" kvs) || not_nullish (lookup "c1" kvs) = true ->
  (forall k, In k (putKeys kvs) -> In k allowedColumns) ->
  exists s,
    calls (snd (handleApiRequest (VStr "put") (VObj kvs) w))
    = (calls w ++ [Run s])%list
    /\ qmarks (sql s) = List.length (binds s)
    /\ List.length (binds s) = S (List.length (putKeys kvs))
    /\ includes (sql s) "v2 = CURRENT_TIMESTAMP WHERE " = true.
Proof.
  intros Htn Hres Hid Hall.
  exists (putStmt tn kvs).
  split; [apply (put_calls _ _ _ Hres Hid (keys_valid _ Hall)) |].
  unfold putStmt, updateStmt. cbn [sql binds].
  rewrite length_app, length_map. cbn [List.length].
  assert (Hset : qmarks (join ", " (List.app (map (fun k => k ++ " = ?") (putKeys kvs))
                                             ["v2 = CURRENT_TIMESTAMP"]))
                 = List.length (putKeys kvs)).
  { rewrite qmarks_join by reflexivity.
    rewrite map_app, list_sum_app.
    rewrite <- (qmarks_assignments ", " (putKeys kvs)) by (assumption || reflexivity).
    rewrite qmarks_join by reflexivity.
    simpl. lia. }
  assert (Hwhere : qmarks (fst (putWhere kvs)) = 0%nat).
  { unfold putWhere. destruct (not_nullish (lookup "id" kvs)); reflexivity. }
  split; [| split].
  - rewrite !qmarks_app, Htn, Hset, Hwhere. simpl. lia.
  - lia.
  - destruct (putKeys kvs) as [| k ks].
    + cbn [map List.app join].
      apply (includes_infix ("UPDATE " ++ tn ++ " SET ")
                            (fst (putWhere kvs) ++ " = ?")).
      now rewrite !append_assoc.
    + rewrite join_snoc by discriminate.
      apply (includes_infix
               ("UPDATE " ++ tn ++ " SET "
                ++ join ", " (map (fun k0 => k0 ++ " = ?") (k :: ks)) ++ ", ")
               (fst (putWhere kvs) ++ " = ?")).
      now rewrite !append_assoc.
Qed.

Lemma getLimit_range v : (1 <= getLimit v <= 500)%Z.
Proof.
  destruct (getLimit_spec v) as [q Hi Hr | q Hi Hr | v' H]; lia.
Qed.

Lemma qmarks_dec_limit n : (1 <= n <= 500)%Z -> qmarks (dec n) = 0%nat.
Proof.
  intros Hn.
  assert (Hall : forallb (fun i => (qmarks (dec (Z.of_nat i)) =? 0)%nat)
                         (seq 1 500) = true) by (vm_compute; reflexivity).
  rewrite forallb_forall in Hall.
  specialize (Hall (Z.to_nat n)).
  rewrite Z2Nat.id in Hall by lia.
  apply Nat.eqb_eq, Hall, in_seq. lia.
Qed.

Lemma qmarks_getConditions kvs :
  (forall k, In k (getFilters kvs) -> In k allowedColumns) ->
  list_sum (map qmarks (getConditions kvs))
  = List.length (List.app (map (fun k => lookup k kvs) (getFilters kvs))
                          (match getBound kvs with
                           | Some v => [v]
                           | None => []
                           end)).
Proof.
  intros Hall. unfold getConditions.
  rewrite map_app, list_sum_app, length_app, length_map.
  rewrite <- (qmarks_assignments " AND " (getFilters kvs))
    by (assumption || reflexivity).
  rewrite qmarks_join by reflexivity.
  f_equal.
  destruct (getBound kvs); [| reflexivity].
  cbn [map List.length].
  change (list_sum [?x]) with (x + 0)%nat.
  rewrite !qmarks_app, (qmarks_column _ (getOrderBy_allowed kvs)).
  destruct (getOrder kvs =? "ASC"); reflexivity.
Qed.

(** X15. Filters bind one value per placeholder: for a table name free of
    [?], the DELETE of a valid [delete] and the SELECT of any [get] that
    reaches the store have exactly as many [?] as bound values. *)
Theorem filter_placeholders_match_binds tn kvs w :
  qmarks tn = 0%nat ->
  resolveTableName (VObj kvs) = Normal (Some tn) ->
  ((forall k, In k (dataKeys kvs) -> In k allowedColumns) ->
   exists s,
     calls (snd (handleApiRequest (VStr "delete") (VObj kvs) w))
     = (calls w ++ [Run s])%list
     /\ qmarks (sql s) = List.length (binds s))
  /\ (calls (snd (handleApiRequest (VStr "get") (VObj kvs) w)) = calls w
      \/ exists s,
           calls (snd (handleApiRequest (VStr "get") (VObj kvs) w))
           = (calls w ++ [All s])%list
           /\ qmarks (sql s) = List.length (binds s)).
Proof.
  intros Htn Hres. split.
  - intros Hall. exists (deleteStmt tn kvs). split.
    + rewrite (delete_runs _ _ _ Hres (keys_valid _ Hall)).
      destruct (db_exec _ (store w)) as [[r | e] st'];
        [cbv zeta; destruct (get_prop r "changes") |];
        destruct (List.length (dataKeys kvs) =? 0)%nat; reflexivity.
    + unfold deleteStmt. cbn [sql binds]. rewrite length_map.
      rewrite !qmarks_app, Htn.
      pose proof (qmarks_assignments " AND " (dataKeys kvs) eq_refl Hall) as Hq.
      revert Hq. destruct (dataKeys kvs) as [| k ks]; intros Hq;
        [reflexivity |].
      cbn [List.length Nat.eqb].
      now rewrite qmarks_app, Hq.
  - destruct (get_calls_shape tn kvs w Hres)
      as [Hnone | (Hcall & Hall & _)]; [now left |].
    right. eexists. split; [exact Hcall |].
    cbn [sql binds].
    rewrite <- (qmarks_getConditions kvs Hall).
    rewrite !qmarks_app, Htn.
    rewrite (qmarks_column _ (getOrderBy_allowed kvs)).
    rewrite (qmarks_dec_limit _ (getLimit_range _)).
    assert (Hord : qmarks (getOrder kvs) = 0%nat)
      by (destruct (getOrder_cases kvs) as [-> | ->]; reflexivity).
    rewrite Hord.
    destruct (getConditions kvs) as [| c cs] eqn:Hc; [reflexivity |].
    rewrite qmarks_app, qmarks_join by reflexivity.
    simpl. lia.
Qed.

(** *** Indices *)

Lemma column_truthy c : In c allowedColumns -> truthy (VStr c) = true.
Proof.
  cbv [allowedColumns]. simpl. intros H.
  repeat (destruct H as [<- | H]; [reflexivity |]).
  contradiction.
Qed.

Lemma create_index_shape tn payload col unique w :
  resolveTableName payload = Normal (Some tn) ->
  get_prop payload "column" = Normal col ->
  get_prop payload "unique" = Normal unique ->
  ((forall c, col = VStr c -> ~ In c allowedColumns) ->
   handleApiRequest (VStr "create_index") payload w
   = if convertible col
     then (Normal (error ("Invalid column: " ++ ToString col)), w)
     else caught (TypeError "Cannot convert object to primitive value") w)
  /\ (forall c, col = VStr c -> In c allowedColumns ->
      calls (snd (handleApiRequest (VStr "create_index") payload w))
      = (calls w
         ++ [Run (prepare ("CREATE " ++ (if truthy unique then "UNIQUE" else "")
                           ++ " INDEX IF NOT EXISTS " ++ indexName tn c
                           ++ " ON " ++ tn ++ " (" ++ c ++ ")"))])%list).
Proof.
  intros Hres Hcol Huniq. split.
  - intros Hbad.
    enter_case Hres.
    unfold case_create_index, mbind, lift, ret.
    rewrite Hcol.
    replace (negb (truthy col) || negb (arr_includes allowedColumns col))
      with true;
      [unfold interpolate; destruct (convertible col); reflexivity |].
    symmetry. apply orb_true_iff. right. apply negb_true_iff.
    destruct col as [| | b | q | c | l | o]; try reflexivity.
    cbn [arr_includes]. apply not_true_iff_false.
    rewrite str_mem_In. now apply Hbad.
  - intros c -> Hin.
    enter_case Hres.
    unfold case_create_index, mbind, lift, ret, db_call.
    rewrite Hcol, Huniq.
    cbn [arr_includes ToString].
    rewrite (column_truthy c Hin), (proj2 (str_mem_In c allowedColumns) Hin).
    cbn [negb orb].
    fold (indexName tn c).
    destruct (db_exec _ (store w)) as [[r | e] st']; reflexivity.
Qed.

(** X16. [create_index] refuses every [column] that is not a string of
    the allow-list (absent, a number, an unknown name, ...) without
    touching the store, naming the column as JavaScript prints it; a
    column that cannot be printed (an object with a [toString] property of
    its own) raises a TypeError inside the [try], answered and logged,
    the store untouched as well.  For a column of the allow-list it runs
    one CREATE [UNIQUE] INDEX IF NOT EXISTS on the index name
    [idx_<table>_<column>]. *)
Theorem create_index_validates_column tn payload col unique w :
  resolveTableName payload = Normal (Some tn) ->
  get_prop payload "column" = Normal col ->
  get_prop payload "unique" = Normal unique ->
  ((forall c, col = VStr c -> ~ In c allowedColumns) ->
   handleApiRequest (VStr "create_index") payload w
   = if convertible col
     then (Normal (error ("Invalid column: " ++ ToString col)), w)
     else caught (TypeError "Cannot convert object to primitive value") w)
  /\ (forall c, col = VStr c -> In c allowedColumns ->
      calls (snd (handleApiRequest (VStr "create_index") payload w))
      = (calls w
         ++ [Run (prepare ("CREATE " ++ (if truthy unique then "UNIQUE" else "")
                           ++ " INDEX IF NOT EXISTS " ++ indexName tn c
                           ++ " ON " ++ tn ++ " (" ++ c ++ ")"))])%list).
Proof. apply create_index_shape. Qed.

(** X17. Index names agree across actions: for a column [c] of the
    allow-list, [drop_index] drops the index named exactly as
    [create_index] names it, [idx_<table>_<c>]; and the two secondary
    indices [create_table] may create carry the names [create_index] and
    [drop_index] derive for [c1] and [v2]. *)
Theorem index_names_agree tn c payload w :
  resolveTableName payload = Normal (Some tn) ->
  get_prop payload "column" = Normal (VStr c) ->
  In c allowedColumns ->
  calls (snd (handleApiRequest (VStr "drop_index") payload w))
  = (calls w ++ [Run (prepare ("DROP INDEX IF EXISTS " ++ indexName tn c))])%list
  /\ (exists u,
        calls (snd (handleApiRequest (VStr "create_index") payload w))
        = (calls w
           ++ [Run (prepare ("CREATE " ++ u ++ " INDEX IF NOT EXISTS "
                             ++ indexName tn c
                             ++ " ON " ++ tn ++ " (" ++ c ++ ")"))])%list)
  /\ map sql (tl (createTableStatements tn false))
     = ["CREATE INDEX IF NOT EXISTS " ++ indexName tn "c1"
        ++ " ON " ++ tn ++ "(c1)";
        "CREATE INDEX IF NOT EXISTS " ++ indexName tn "v2"
        ++ " ON " ++ tn ++ "(v2)"].
Proof.
  intros Hres Hcol Hin. split; [| split].
  - enter_case Hres.
    unfold case_drop_index, mbind, lift, ret, db_call.
    rewrite Hcol, (column_truthy c Hin).
    cbn [negb interpolate convertible ToString]. fold (indexName tn c).
    destruct (db_exec _ (store w)) as [[r | e] st']; reflexivity.
  - assert (Hu : exists unique, get_prop payload "unique" = Normal unique).
    { destruct payload; try discriminate; cbn [get_prop]; eauto. }
    destruct Hu as [unique Hu].
    eexists.
    apply (proj2 (create_index_shape tn payload (VStr c) unique w Hres Hcol Hu)
                 c eq_refl Hin).
  - unfold createTableStatements, indexName. cbn [negb List.app tl map sql prepare].
    now rewrite !append_assoc.
Qed.

(** X18. [drop_index] checks only that [column] is truthy, not that it is
    a column: a missing or falsy [column] is answered "Missing column"
    with the world untouched, and any truthy string is interpolated into
    the index name as it is. *)
Theorem drop_index_checks_presence_only tn payload col w :
  resolveTableName payload = Normal (Some tn) ->
  get_prop payload "column" = Normal col ->
  (truthy col = false ->
   handleApiRequest (VStr "drop_index") payload w
   = (Normal (error "Missing column"), w))
  /\ (forall c, col = VStr c -> c <> "" ->
      calls (snd (handleApiRequest (VStr "drop_index") payload w))
      = (calls w
         ++ [Run (prepare ("DROP INDEX IF EXISTS idx_" ++ tn ++ "_" ++ c))])%list).
Proof.
  intros Hres Hcol. split.
  - intros Hf.
    enter_case Hres.
    unfold case_drop_index, mbind, lift, ret.
    now rewrite Hcol, Hf.
  - intros c -> Hne.
    enter_case Hres.
    unfold case_drop_index, mbind, lift, ret, db_call.
    rewrite Hcol. cbn [truthy interpolate convertible ToString].
    apply String.eqb_neq in Hne. rewrite Hne. cbn [negb].
    destruct (db_exec _ (store w)) as [[r | e] st']; reflexivity.
Qed.

(** *** exec, beyond the guard *)

(** X19. An [exec] whose query passes the guard runs the caller's text
    as given (neither lowercased nor trimmed), with [params] bound when it
    is an array and nothing bound otherwise.  A store error is answered
    "SQL Execution Error: <message>" by the inner [catch]: nothing is
    logged, unlike the other actions. *)
Theorem exec_runs_query_verbatim tn payload q params w :
  resolveTableName payload = Normal (Some tn) ->
  get_prop payload "query" = Normal (VStr q) ->
  get_prop payload "params" = Normal params ->
  q <> "" ->
  includes (trim (toLowerCase q)) "sqlite_master" = false ->
  includes (trim (toLowerCase q)) "_cf_" = false ->
  let stmt := {| sql := q;
                 binds := match params with VArr ps => ps | _ => [] end |} in
  calls (snd (handleApiRequest (VStr "exec") payload w))
  = (calls w ++ [All stmt])%list
  /\ diagnostics (snd (handleApiRequest (VStr "exec") payload w))
     = diagnostics w
  /\ (forall e st', db_exec (All stmt) (store w) = (Throw e, st') ->
        fst (handleApiRequest (VStr "exec") payload w)
        = Normal (error ("SQL Execution Error: " ++ err_message e))).
Proof.
  intros Hres Hq Hp Hne H1 H2 stmt.
  assert (Hrun : handleApiRequest (VStr "exec") payload w
                 = match db_exec (All stmt) (store w) with
                   | (Normal r, st') =>
                       match get_prop r "results", get_prop r "meta" with
                       | Normal rs, Normal meta =>
                           (Normal (VObj [("success", VBool true);
                                          ("results", js_or rs (VArr []));
                                          ("meta", meta)]),
                            called (All stmt) st' w)
                       | Throw e, _ | _, Throw e =>
                           (Normal (error ("SQL Execution Error: "
                                           ++ err_message e)),
                            called (All stmt) st' w)
                       end
                   | (Throw e, st') =>
                       (Normal (error ("SQL Execution Error: " ++ err_message e)),
                        called (All stmt) st' w)
                   end).
  { enter_case Hres.
    unfold case_exec, mbind, lift, ret, try_catch, db_call.
    rewrite Hq, Hp. cbn [truthy].
    apply String.eqb_neq in Hne. rewrite Hne, H1, H2. cbn [negb orb].
    assert (Hs : match params with
                 | VArr ps => bind (prepare q) ps
                 | _ => prepare q
                 end = stmt)
      by (unfold stmt; destruct params; reflexivity).
    rewrite Hs.
    destruct (db_exec (All stmt) (store w)) as [[r | e] st']; [| reflexivity].
    fold (called (All stmt) st' w).
    destruct (get_prop r "results"); [| reflexivity].
    destruct (get_prop r "meta"); reflexivity. }
  rewrite Hrun.
  destruct (db_exec (All stmt) (store w)) as [[r | e] st'].
  - split; [| split].
    + destruct (get_prop r "results"); [destruct (get_prop r "meta") |];
        reflexivity.
    + destruct (get_prop r "results"); [destruct (get_prop r "meta") |];
        reflexivity.
    + intros e' st'' [=].
  - split; [reflexivity | split; [reflexivity |]].
    intros e' st'' [= <- <-]. reflexivity.
Qed.

(** *** init_system *)

(** X20. [init_system] works on the system table whatever [table_name]
    the payload carries, and it never completes: it submits one batch, the
    one that creates [__DA_SYSTEM_CONFIG] with a UNIQUE [c1] (so without
    an index on [c1]); when that batch succeeds, reading the undeclared
    [DB_VERSION] throws, so the two reserved records are never inserted
    and the answer is the error "DB_VERSION is not defined"; when the
    batch fails the answer is the store's message.  Either way the
    failure is logged. *)
Theorem init_system_never_seeds tn payload w :
  resolveTableName payload = Normal (Some tn) ->
  let create := Batch (createTableStatements DB_DA_SYSTEM_TABLENAME true) in
  List.length (createTableStatements DB_DA_SYSTEM_TABLENAME true) = 2%nat
  /\ calls (snd (handleApiRequest (VStr "init_system") payload w))
     = (calls w ++ [create])%list
  /\ match db_exec create (store w) with
     | (Normal _, st1) =>
         handleApiRequest (VStr "init_system") payload w
         = (Normal (error "DB_VERSION is not defined"),
            logged "DB operation failed: DB_VERSION is not defined"
                   (called create st1 w))
     | (Throw e, st1) =>
         handleApiRequest (VStr "init_system") payload w
         = caught e (called create st1 w)
     end.
Proof.
  intros Hres create. split; [reflexivity |].
  enter_case Hres.
  unfold case_init_system, daSystemTableInit, daCreateTable, mbind, ret, throw,
    db_call.
  fold create.
  destruct (db_exec create (store w)) as [[r | e] st1];
    split; reflexivity.
Qed.

(** *** normalizeJsonColumns *)

Lemma lookup_update_same k v kvs :
  is_object (lookup k kvs) = true -> lookup k (update k v kvs) = v.
Proof.
  induction kvs as [| [k0 v0] rest IH]; [discriminate |].
  cbn [lookup update].
  destruct (k0 =? k) eqn:E; cbn [lookup]; rewrite E; [reflexivity | exact IH].
Qed.

Lemma norm1_not_object k kvs : is_object (lookup k (norm1 k kvs)) = false.
Proof.
  unfold norm1.
  destruct (is_object (lookup k kvs)) eqn:E; [| exact E].
  now rewrite lookup_update_same.
Qed.

Lemma norm1_fixed k kvs :
  is_object (lookup k kvs) = false -> norm1 k kvs = kvs.
Proof. intros H. unfold norm1. now rewrite H. Qed.

(** X21. On an object, [normalizeJsonColumns] keeps the keys and their
    order and every value outside [t1], [t2], [t3]; afterwards none of
    the three holds an object or array; and normalising again changes
    nothing. *)
Theorem normalizeJsonColumns_makes_text kvs :
  exists kvs',
    normalizeJsonColumns (VObj kvs) = Normal (VObj kvs')
    /\ map fst kvs' = map fst kvs
    /\ (forall k, k <> "t1" -> k <> "t2" -> k <> "t3" ->
                  lookup k kvs' = lookup k kvs)
    /\ (forall k, In k ["t1"; "t2"; "t3"] -> is_object (lookup k kvs') = false)
    /\ normalizeJsonColumns (VObj kvs') = Normal (VObj kvs').
Proof.
  exists (normalized kvs).
  assert (Hobj : forall k, In k ["t1"; "t2"; "t3"] ->
                           is_object (lookup k (normalized kvs)) = false).
  { intros k [<- | [<- | [<- | []]]]; unfold normalized.
    - rewrite !lookup_norm1_other by discriminate. apply norm1_not_object.
    - rewrite lookup_norm1_other by discriminate. apply norm1_not_object.
    - apply norm1_not_object. }
  repeat split.
  - apply normalizeJsonColumns_obj.
  - apply keys_normalized.
  - intros k H1 H2 H3. now apply lookup_normalized.
  - exact Hobj.
  - rewrite normalizeJsonColumns_obj. do 2 f_equal.
    unfold normalized at 1.
    rewrite (norm1_fixed "t1") by (apply Hobj; simpl; tauto).
    rewrite (norm1_fixed "t2") by (apply Hobj; simpl; tauto).
    apply norm1_fixed, Hobj. simpl; tauto.
Qed.

(** *** update_c1, when the store answers *)

(** X22. An [update_c1] with truthy [id] and [new_c1] runs one UPDATE
    that sets [c1] and refreshes [v2] on the row with that [id], binding
    [new_c1] first and [id] second; it answers "Record not found" when
    the store reports [changes === 0] and [renamed: true] otherwise. *)
Theorem update_c1_outcomes tn payload id new_c1 w r st' ch :
  resolveTableName payload = Normal (Some tn) ->
  get_prop payload "id" = Normal id ->
  get_prop payload "new_c1" = Normal new_c1 ->
  truthy id = true -> truthy new_c1 = true ->
  let stmt := {| sql := "UPDATE " ++ tn
                        ++ " SET c1 = ?, v2 = CURRENT_TIMESTAMP WHERE id = ?";
                 binds := [new_c1; id] |} in
  db_exec (Run stmt) (store w) = (Normal r, st') ->
  get_prop r "changes" = Normal ch ->
  handleApiRequest (VStr "update_c1") payload w
  = (Normal (if is_zero ch then error "Record not found"
             else VObj [("renamed", VBool true)]),
     called (Run stmt) st' w).
Proof.
  intros Hres Hid Hnew Tid Tnew stmt Hdb Hch.
  rewrite (handle_update_c1 _ _ _ Hres).
  unfold case_update_c1, mbind, lift, ret, try_catch, db_call.
  rewrite Hid, Hnew, Tid, Tnew. cbn [negb orb].
  unfold bind, prepare. cbn [sql]. fold stmt.
  rewrite Hdb, Hch.
  destruct (is_zero ch); reflexivity.
Qed.

(** *** batch_post, when the batch is not built *)

Lemma mapC_throws {A B} (f : A -> Completion B) xs x e :
  In x xs -> f x = Throw e -> exists e', mapC f xs = Throw e'.
Proof.
  intros Hin Hx.
  induction xs as [| y ys IH]; [contradiction |].
  cbn [mapC].
  destruct (f y) as [b | e0] eqn:Hy; [| eauto].
  destruct Hin as [-> | Hin]; [congruence |].
  destruct (IH Hin) as [e' ->]. eauto.
Qed.

(** X23. [batch_post] submits nothing unless every statement could be
    built: a [data] that is not an array is answered "Payload 'data' must
    be an array" with the world untouched, and a [null] among the records
    makes the whole request fail with an error before the store is
    called, whatever the other records are. *)
Theorem batch_post_builds_all_or_nothing tn payload data w :
  resolveTableName payload = Normal (Some tn) ->
  get_prop payload "data" = Normal data ->
  ((forall rs, data <> VArr rs) ->
   handleApiRequest (VStr "batch_post") payload w
   = (Normal (error "Payload 'data' must be an array"), w))
  /\ (forall rs, data = VArr rs -> In VNull rs ->
      exists msg,
        fst (handleApiRequest (VStr "batch_post") payload w)
        = Normal (error msg)
        /\ calls (snd (handleApiRequest (VStr "batch_post") payload w))
           = calls w).
Proof.
  intros Hres Hdata. split.
  - intros Hna.
    enter_case Hres.
    unfold case_batch_post, mbind, lift, ret.
    rewrite Hdata.
    destruct data; try reflexivity.
    now contradiction (Hna l).
  - intros rs -> Hin.
    destruct (mapC_throws (batchInsert tn) rs VNull
                (TypeError "Cannot read properties of null (reading 't1')")
                Hin eq_refl) as [e' He'].
    exists (err_message e').
    enter_case Hres.
    unfold case_batch_post, mbind, lift, ret.
    rewrite Hdata, He'. split; reflexivity.
Qed.

(** *** list_tables *)




(** *** The HTTP wrapper *)

Lemma authorized_passes request env w :
  authorized request env = true ->
  handleApi request env w
  = match json request with
    | None =>
        (Normal (nack (VStr "unknown") (sourceIdOf env) "INVALID_JSON"
                      (VStr "Malformed JSON")), w)
    | Some b =>
        (rid <- lift (get_prop b "request_id") ;;
         let requestId := js_or rid (VStr "unknown") in
         payload <- lift (get_prop b "payload") ;;
         if negb (truthy payload)
         then ret (nack requestId (sourceIdOf env) "INVALID_FIELD"
                        (VStr "Missing payload"))
         else
           action <- lift (get_prop b "action") ;;
           r <- handleApiRequest (js_or action (VStr "")) payload ;;
           err <- lift (if truthy r then get_prop r "error" else Normal r) ;;
           if truthy r && truthy err
           then ret (nack requestId (sourceIdOf env) "REQUEST_FAILED" err)
           else ret (ack requestId (sourceIdOf env) (js_or r (VObj [])))) w
    end.
Proof.
  unfold authorized, handleApi. fold (sourceIdOf env).
  destruct (authorization request) as [auth |]; [| discriminate].
  destruct ((auth =? "") || negb (startsWith auth "Bearer "));
    [discriminate |].
  destruct (differs _ _); [discriminate |].
  intros _. destruct (json request); reflexivity.
Qed.

(** X25. A request stopped at a gate never reaches the dispatcher: a
    method other than POST is answered 405 in plain text, and a POST
    without a valid bearer token, with a body that does not parse, or
    with a falsy [payload] is answered by a nack with status 400; in all
    four cases the store, the calls and the diagnostics are untouched. *)
Theorem gated_requests_leave_the_world method request env w :
  (method <> "POST" ->
   onRequest method request env w
   = (Normal (PlainText 405 "Method Not Allowed"), w))
  /\ (authorized request env = false ->
      exists code msg,
        onRequest "POST" request env w
        = (Normal (Json (nack (VStr "unknown") (sourceIdOf env) code msg)), w)
        /\ In code ["UNAUTHORIZED"; "INVALID_TOKEN"])
  /\ (authorized request env = true -> json request = None ->
      onRequest "POST" request env w
      = (Normal (Json (nack (VStr "unknown") (sourceIdOf env) "INVALID_JSON"
                            (VStr "Malformed JSON"))), w))
  /\ (forall b payload,
        authorized request env = true -> json request = Some b ->
        get_prop b "payload" = Normal payload -> truthy payload = false ->
        onRequest "POST" request env w
        = (Normal (Json (nack (requestIdOf b) (sourceIdOf env) "INVALID_FIELD"
                              (VStr "Missing payload"))), w)).
Proof.
  split; [| split; [| split]].
  - intros Hm. unfold onRequest.
    apply String.eqb_neq in Hm. now rewrite Hm.
  - intros Hauth. unfold onRequest, mbind, ret. cbn [String.eqb Ascii.eqb Bool.eqb negb].
    unfold authorized in Hauth. unfold handleApi. fold (sourceIdOf env).
    destruct (authorization request) as [auth |].
    + destruct ((auth =? "") || negb (startsWith auth "Bearer ")).
      * do 2 eexists. split; [reflexivity | simpl; tauto].
      * destruct (differs _ _); [| discriminate].
        do 2 eexists. split; [reflexivity | simpl; tauto].
    + do 2 eexists. split; [reflexivity | simpl; tauto].
  - intros Hauth Hjson. unfold onRequest, mbind, ret.
    cbn [String.eqb Ascii.eqb Bool.eqb negb].
    now rewrite (authorized_passes _ _ _ Hauth), Hjson.
  - intros b payload Hauth Hjson Hp Hf. unfold onRequest, mbind, ret.
    cbn [String.eqb Ascii.eqb Bool.eqb negb].
    rewrite (authorized_passes _ _ _ Hauth), Hjson.
    unfold mbind, lift, ret, requestIdOf.
    assert (Hrid : exists rid, get_prop b "request_id" = Normal rid).
    { destruct b; try discriminate; cbn [get_prop]; eauto. }
    destruct Hrid as [rid ->]. now rewrite Hp, Hf.
Qed.

(** X26. Every envelope pairs its HTTP status with its type -- 200 with
    "ack", 400 with "nack" and an error payload -- and carries the same
    [source_id], the service name followed by [/] and the configured
    instance, "default" when [DA_INSTANCEID] is unset or empty. *)
Theorem envelope_status_matches_type request env w resp w' :
  handleApi request env w = (Normal resp, w') ->
  get_prop (body resp) "source_id" = Normal (VStr (sourceIdOf env))
  /\ ((status resp = 200%Z /\ get_prop (body resp) "type" = Normal (VStr "ack"))
      \/ (status resp = 400%Z
          /\ get_prop (body resp) "type" = Normal (VStr "nack")
          /\ exists code message,
               get_prop (body resp) "payload"
               = Normal (VObj [("status", VStr "error"); ("code", VStr code);
                               ("message", message)])))
  /\ (truthy (DA_INSTANCEID env) = false ->
      sourceIdOf env = "da-cloud-cfd1-rack/default").
Proof.
  intros H.
  assert (Hshape : (exists rid p, resp = ack rid (sourceIdOf env) p)
                   \/ exists rid code msg,
                        resp = nack rid (sourceIdOf env) code msg).
  { unfold handleApi in H. fold (sourceIdOf env) in H.
    destruct (authorization request) as [auth |];
      [| injection H as <- _; right; eauto].
    destruct ((auth =? "") || negb (startsWith auth "Bearer "));
      [injection H as <- _; right; eauto |].
    destruct (differs _ _); [injection H as <- _; right; eauto |].
    destruct (json request) as [b |]; [| injection H as <- _; right; eauto].
    unfold mbind, lift, ret in H.
    destruct (get_prop b "request_id"); [| discriminate].
    destruct (get_prop b "payload"); [| discriminate].
    destruct (negb (truthy a0)); [injection H as <- _; right; eauto |].
    destruct (get_prop b "action"); [| discriminate].
    destruct (handleApiRequest _ _ w) as [[r | e] w1]; [| discriminate].
    destruct (if truthy r then get_prop r "error" else Normal r);
      [| discriminate].
    destruct (truthy r && truthy a2); injection H as <- _; [right | left]; eauto. }
  split; [| split].
  - destruct Hshape as [(rid & p & ->) | (rid & code & msg & ->)]; reflexivity.
  - destruct Hshape as [(rid & p & ->) | (rid & code & msg & ->)].
    + left. split; reflexivity.
    + right. split; [reflexivity | split; [reflexivity |]].
      do 2 eexists. reflexivity.
  - intros Hf. unfold sourceIdOf, js_or. now rewrite Hf.
Qed.

(** X27. What the dispatcher answers decides the envelope: an answer
    [{error: msg}] with a non-empty message becomes a nack with code
    REQUEST_FAILED and that message; an answer [null] becomes an ack with
    the empty object as payload; and an answer [{error: ""}] -- a caught
    exception whose message is empty -- is acknowledged as a success. *)
Theorem envelope_of_dispatcher_answer request env b payload action w r w' :
  authorized request env = true ->
  json request = Some b ->
  get_prop b "payload" = Normal payload -> truthy payload = true ->
  get_prop b "action" = Normal action ->
  handleApiRequest (js_or action (VStr "")) payload w = (Normal r, w') ->
  (forall msg, r = error msg -> msg <> "" ->
     handleApi request env w
     = (Normal (nack (requestIdOf b) (sourceIdOf env) "REQUEST_FAILED"
                     (VStr msg)), w'))
  /\ (r = VNull ->
      handleApi request env w
      = (Normal (ack (requestIdOf b) (sourceIdOf env) (VObj [])), w'))
  /\ (r = error "" ->
      handleApi request env w
      = (Normal (ack (requestIdOf b) (sourceIdOf env) (error "")), w')).
Proof.
  intros Hauth Hjson Hp Ht Ha Hr.
  rewrite (authorized_passes _ _ _ Hauth), Hjson.
  unfold mbind, lift, ret, requestIdOf.
  assert (Hrid : exists rid, get_prop b "request_id" = Normal rid).
  { destruct b; try discriminate; cbn [get_prop]; eauto. }
  destruct Hrid as [rid ->].
  cbv beta zeta. rewrite Hp, Ht. cbn [negb]. rewrite Ha. cbv beta. rewrite Hr.
  split; [| split].
  - intros msg -> Hne. cbn.
    apply String.eqb_neq in Hne. now rewrite Hne.
  - intros ->. reflexivity.
  - intros ->. reflexivity.
Qed.

(** *** put, before the store is reached *)

(** X28. [put] validates before it updates: without a non-null [id] or
    [c1] it answers "Missing 'id' or 'c1' for update"; with one of them
    but a key that is not a column (other than [table_name], [id], [c1])
    it answers "Invalid columns: ..." listing exactly those keys; in both
    cases the world is left as it was.  The first check wins when both
    fail. *)
Theorem put_validates_before_update tn kvs w :
  resolveTableName (VObj kvs) = Normal (Some tn) ->
  (not_nullish (lookup "id" kvs) = false ->
   not_nullish (lookup "c1" kvs) = false ->
   handleApiRequest (VStr "put") (VObj kvs) w
   = (Normal (error "Missing 'id' or 'c1' for update"), w))
  /\ (forall k,
        not_nullish (lookup "id" kvs) || not_nullish (lookup "c1" kvs) = true ->
        In k (putKeys kvs) -> ~ In k allowedColumns ->
        handleApiRequest (VStr "put") (VObj kvs) w
        = (Normal (error ("Invalid columns: "
                          ++ join ", " (filter notAllowed (putKeys kvs)))), w)
        /\ forall k', In k' (filter notAllowed (putKeys kvs))
                      <-> In k' (putKeys kvs) /\ ~ In k' allowedColumns).
Proof.
  intros Hres. split.
  - intros Hid Hc1. apply (put_missing tn); [assumption |].
    now rewrite Hid, Hc1.
  - intros k Hany Hin Hbad. split.
    + apply (put_invalid tn); try assumption.
      intros Hnil.
      assert (H : In k (filter notAllowed (putKeys kvs)))
        by now apply filter_notAllowed_In.
      now rewrite Hnil in H.
    + intros k'. apply filter_notAllowed_In.
Qed.

(** *** Which actions issue an UPDATE *)























End Handler.

(* ================================================================== *)
(** ** The handler on concrete requests                                *)
(* ================================================================== *)

Local Abbreviation handle answer :=
  (handleApiRequest nat (scripted answer) demo_stringify demo_number
                    ).
Local Abbreviation serve answer :=
  (handleApi nat (scripted answer) demo_stringify demo_number
             ).
Local Abbreviation w0 := (Build_World nat 0%nat [] []).
Local Abbreviation env0 :=
  {| DA_INSTANCEID := VUndefined; DA_WRITE_TOKEN := VStr "s3cret" |}.
Local Abbreviation at_ answer thm :=
  (thm nat (scripted answer) demo_stringify demo_number).

(** [exec] on the catalog name: refused before the query is looked at. *)
Lemma bad_table_name_witness :
  BadTableName (VObj [("table_name", VStr "sqlite_master");
                      ("query", VStr "SELECT 1")])
  /\ handle answer_ok (VStr "exec")
        (VObj [("table_name", VStr "sqlite_master"); ("query", VStr "SELECT 1")])
        w0
     = (Normal (error "Invalid or missing table_name"),
        Build_World nat 0%nat [] ["Invalid or missing table_name"]).
Proof.
  assert (H : BadTableName (VObj [("table_name", VStr "sqlite_master");
                                  ("query", VStr "SELECT 1")])).
  { apply (table_name_forbidden _ "sqlite_master");
      [reflexivity | simpl; auto]. }
  split; [exact H |].
  exact (at_ answer_ok bad_table_name_rejected_uniformly (VStr "exec") _ w0 H).
Defined.

(** A mixed-case reference to the catalog is refused. *)
Lemma exec_forbidden_witness :
  includes (toLowerCase "SELECT name FROM SQLite_Master") "sqlite_master" = true
  /\ handle answer_ok (VStr "exec")
        (VObj [("table_name", VStr "t");
               ("query", VStr "SELECT name FROM SQLite_Master")]) w0
     = (Normal (error "Access to system tables via EXEC is forbidden."), w0).
Proof.
  split; [reflexivity |].
  apply (at_ answer_ok exec_system_tables_forbidden "t" _
           "SELECT name FROM SQLite_Master" w0);
    [reflexivity | reflexivity | left; reflexivity].
Defined.

(** [put {table_name: "t", id: 7}] against a store where no row matches. *)
Lemma put_touch_witness :
  calls nat (snd (handle answer_no_row (VStr "put")
                    (VObj [("table_name", VStr "t"); ("id", num_of_Z 7)]) w0))
  = [Run {| sql := "UPDATE t SET v2 = CURRENT_TIMESTAMP WHERE id = ?";
            binds := [num_of_Z 7] |}]
  /\ fst (handle answer_no_row (VStr "put")
            (VObj [("table_name", VStr "t"); ("id", num_of_Z 7)]) w0)
     = Normal (error "Record not found or no rows updated").
Proof.
  pose proof (at_ answer_no_row put_touch_and_not_found "t"
                [("table_name", VStr "t"); ("id", num_of_Z 7)] w0
                eq_refl eq_refl) as [Htouch Hnone].
  split.
  - exact (Htouch eq_refl).
  - rewrite (Hnone (VObj [("changes", num_of_Z 0)]) 1%nat (num_of_Z 0)
               eq_refl eq_refl eq_refl eq_refl).
    reflexivity.
Defined.

(** [get] with [limit: 1000]: the query is capped at 500. *)
Lemma get_limit_witness :
  limit_spec (num_of_Z 1000) 500
  /\ calls nat (snd (handle answer_ok (VStr "get")
                       (VObj [("table_name", VStr "t");
                              ("limit", num_of_Z 1000)]) w0))
     = [All {| sql := "SELECT * FROM t ORDER BY id ASC LIMIT 500";
               binds := [] |}].
Proof.
  assert (Hspec : limit_spec (num_of_Z 1000) 500)
    by (apply (limit_capped (inject_Z 1000)); [reflexivity | reflexivity]).
  split; [exact Hspec |].
  destruct (at_ answer_ok get_limit "t"
              [("table_name", VStr "t"); ("limit", num_of_Z 1000)] w0 eq_refl)
    as (n & _ & Huniq & Hcall & _).
  rewrite <- (Huniq 500%Z Hspec) in Hcall.
  apply Hcall; [intros k [] | reflexivity].
Defined.

(** [update_c1] against a store that fails: once on the uniqueness
    constraint, once for another reason. *)
Lemma update_c1_errors_witness :
  fst (handle (answer_error "UNIQUE constraint failed: t.c1") (VStr "update_c1")
         (VObj [("table_name", VStr "t"); ("id", num_of_Z 3);
                ("new_c1", VStr "k")]) w0)
  = Normal (error "c1 already exists")
  /\ fst (handle (answer_error "database is locked") (VStr "update_c1")
            (VObj [("table_name", VStr "t"); ("id", num_of_Z 3);
                   ("new_c1", VStr "k")]) w0)
     = Normal (error "database is locked").
Proof.
  split.
  - rewrite (proj1 (at_ (answer_error "UNIQUE constraint failed: t.c1")
                      update_c1_store_errors "t"
                      (VObj [("table_name", VStr "t"); ("id", num_of_Z 3);
                             ("new_c1", VStr "k")])
                      (num_of_Z 3) (VStr "k") w0
                      "UNIQUE constraint failed: t.c1" 1%nat
                      eq_refl eq_refl eq_refl eq_refl eq_refl eq_refl)
               eq_refl).
    reflexivity.
  - rewrite (proj2 (proj2 (at_ (answer_error "database is locked")
                      update_c1_store_errors "t"
                      (VObj [("table_name", VStr "t"); ("id", num_of_Z 3);
                             ("new_c1", VStr "k")])
                      (num_of_Z 3) (VStr "k") w0
                      "database is locked" 1%nat
                      eq_refl eq_refl eq_refl eq_refl eq_refl eq_refl)
               eq_refl)).
    reflexivity.
Defined.

(** [create_table] without the flag: three statements, [c1] not unique. *)
Lemma create_table_witness :
  exists body,
    map trim (split "," body) = schema false
    /\ calls nat (snd (handle answer_ok (VStr "create_table")
                         (VObj [("table_name", VStr "t")]) w0))
       = [Batch [prepare ("
    CREATE TABLE IF NOT EXISTS t (" ++ body ++ ");
  ");
                 prepare "CREATE INDEX IF NOT EXISTS idx_t_c1 ON t(c1)";
                 prepare "CREATE INDEX IF NOT EXISTS idx_t_v2 ON t(v2)"]].
Proof.
  destruct (at_ answer_ok create_table_statements "t"
              (VObj [("table_name", VStr "t")]) VUndefined w0
              eq_refl eq_refl) as (body & Hbody & Hcalls & _).
  exists body. split; [exact Hbody | exact Hcalls].
Defined.


(** [id: 0] is refused by [update_c1] and accepted by [put]. *)
Lemma update_c1_falsy_witness :
  handle answer_ok (VStr "update_c1")
    (VObj [("table_name", VStr "t"); ("id", num_of_Z 0); ("new_c1", VStr "k")])
    w0
  = (Normal (error "Missing id or new_c1"), w0)
  /\ calls nat (snd (handle answer_ok (VStr "put")
                       (VObj [("table_name", VStr "t"); ("id", num_of_Z 0)]) w0))
     = [Run {| sql := "UPDATE t SET v2 = CURRENT_TIMESTAMP WHERE id = ?";
               binds := [num_of_Z 0] |}].
Proof.
  pose proof (at_ answer_ok update_c1_rejects_falsy "t" w0) as [Hrename Hput].
  split.
  - exact (Hrename (VObj [("table_name", VStr "t"); ("id", num_of_Z 0);
                          ("new_c1", VStr "k")])
                   (num_of_Z 0) (VStr "k") eq_refl eq_refl eq_refl
                   (or_introl eq_refl)).
  - exact (Hput [("table_name", VStr "t"); ("id", num_of_Z 0)]
                eq_refl eq_refl eq_refl eq_refl).
Defined.

(** Two records, one of them with a key outside the allow-list. *)
Lemma batch_post_witness :
  handle answer_ok (VStr "batch_post")
    (VObj [("table_name", VStr "t");
           ("data", VArr [VObj [("c1", VStr "a"); ("bogus", num_of_Z 1)];
                          VObj [("c1", VStr "b"); ("i1", num_of_Z 2)]])]) w0
  = (Normal (VObj [("inserted", num_of_Z 2)]),
     Build_World nat 1%nat
       [Batch [ {| sql := "INSERT INTO t (c1) VALUES (?)";
                   binds := [VStr "a"] |};
                {| sql := "INSERT INTO t (c1,i1) VALUES (?,?)";
                   binds := [VStr "b"; num_of_Z 2] |} ]]
       []).
Proof.
  exact (proj2 (at_ answer_ok batch_post_filters_keys "t"
                  (VObj [("table_name", VStr "t");
                         ("data", VArr [VObj [("c1", VStr "a");
                                              ("bogus", num_of_Z 1)];
                                        VObj [("c1", VStr "b");
                                              ("i1", num_of_Z 2)]])])
                  [[("c1", VStr "a"); ("bogus", num_of_Z 1)];
                   [("c1", VStr "b"); ("i1", num_of_Z 2)]]
                  w0 eq_refl eq_refl)
               [VObj [("success", VBool true)]; VObj [("success", VBool true)]]
               1%nat eq_refl eq_refl).
Defined.

(** *** Where the code departs from the spec *)

(** C1. The code breaks the claim.  A record with the key [bogus], which
    is not a column, is refused by [post] ("Invalid columns: bogus",
    nothing executed), as [put], [delete] and [get] refuse such keys; the
    same record in the [data] of a [batch_post] is not refused: the key is
    dropped, the INSERT runs on the remaining column, and the answer is
    [inserted: 1]. *)
Lemma batch_post_accepts_what_post_rejects :
  str_mem "bogus" allowedColumns = false
  /\ handle answer_ok (VStr "post")
        (VObj [("table_name", VStr "t");
               ("c1", VStr "a"); ("bogus", num_of_Z 1)]) w0
     = (Normal (error "Invalid columns: bogus"), w0)
  /\ handle answer_ok (VStr "batch_post")
        (VObj [("table_name", VStr "t");
               ("data", VArr [VObj [("c1", VStr "a"); ("bogus", num_of_Z 1)]])])
        w0
     = (Normal (VObj [("inserted", num_of_Z 1)]),
        Build_World nat 1%nat
          [Batch [ {| sql := "INSERT INTO t (c1) VALUES (?)";
                      binds := [VStr "a"] |} ]]
          []).
Proof. repeat split; reflexivity. Qed.

(** C4. The code breaks the second half of the claim.  [put] tests
    [result.changes === 0], but the reply of the store carries the count
    as [meta.changes] and has no [changes] of its own.  So for a [put] by
    an [id] that matches no row the touch UPDATE runs as the claim says,
    the test compares [undefined] with 0, and the answer is
    [updated: undefined], which [handleApi] acknowledges with status 200
    instead of the not-found error. *)
Lemma put_without_match_is_acknowledged :
  get_prop (d1_reply 0) "changes" = Normal VUndefined
  /\ handle (answer_d1 0) (VStr "put")
        (VObj [("table_name", VStr "t"); ("id", num_of_Z 999)]) w0
     = (Normal (VObj [("updated", VUndefined)]),
        Build_World nat 1%nat
          [Run {| sql := "UPDATE t SET v2 = CURRENT_TIMESTAMP WHERE id = ?";
                  binds := [num_of_Z 999] |}]
          [])
  /\ fst (serve (answer_d1 0)
            {| authorization := Some "Bearer s3cret";
               json := Some (VObj [("request_id", VStr "r-4");
                                   ("action", VStr "put");
                                   ("payload", VObj [("table_name", VStr "t");
                                                     ("id", num_of_Z 999)])]) |}
            env0 w0)
     = Normal (ack (VStr "r-4") "da-cloud-cfd1-rack/default"
                   (VObj [("updated", VUndefined)])).
Proof. repeat split; reflexivity. Qed.


(** Against C8: a request without an [Authorization] header whose body
    carries [request_id: "r-1"], and an authorized request whose body
    carries the empty string as [request_id], are both answered with
    [request_id: "unknown"]. *)
Lemma request_id_not_echoed :
  (exists resp,
      fst (serve answer_ok
             {| authorization := None;
                json := Some (VObj [("request_id", VStr "r-1");
                                    ("action", VStr "list_tables");
                                    ("payload", VObj [("table_name", VStr "t")])]) |}
             {| DA_INSTANCEID := VUndefined; DA_WRITE_TOKEN := VStr "s3cret" |}
             w0) = Normal resp
      /\ get_prop (body resp) "request_id" = Normal (VStr "unknown"))
  /\ (exists resp,
        fst (serve answer_ok
               {| authorization := Some "Bearer s3cret";
                  json := Some (VObj [("request_id", VStr "");
                                      ("action", VStr "list_tables");
                                      ("payload", VObj [("table_name", VStr "t")])]) |}
               {| DA_INSTANCEID := VUndefined; DA_WRITE_TOKEN := VStr "s3cret" |}
               w0) = Normal resp
        /\ get_prop (body resp) "type" = Normal (VStr "ack")
        /\ get_prop (body resp) "request_id" = Normal (VStr "unknown")).
Proof.
  split; eexists; repeat split; reflexivity.
Qed.

(** *** The further properties on concrete requests *)

Lemma resolved_table_name_witness :
  resolveTableName (VObj [("table_name", VStr "  users ")]) = Normal (Some "users")
  /\ "users" <> "" /\ isTrimmed "users" /\ ~ In "users" FORBIDDEN_TABLES.
Proof.
  split; [reflexivity |].
  exact (proj2 (resolved_table_name_is_clean
                  (VObj [("table_name", VStr "  users ")]) "users" eq_refl)).
Defined.

Lemma dispatcher_throws_witness :
  fst (handle answer_ok (VStr "get") (VObj [("table_name", num_of_Z 5)]) w0)
  = Throw (TypeError "payload.table_name?.trim is not a function").
Proof.
  apply (proj1 (at_ answer_ok dispatcher_throws_only_on_table_name
                  (VStr "get") (VObj [("table_name", num_of_Z 5)]) w0
                  (TypeError "payload.table_name?.trim is not a function"))).
  reflexivity.
Defined.

Lemma unknown_action_witness :
  handle answer_ok (VStr "truncate") (VObj [("table_name", VStr "t")]) w0
  = (Normal (error "Unknown action: truncate"), w0)
  /\ handle answer_ok (VArr [num_of_Z 1; VNull; VStr "x"])
       (VObj [("table_name", VStr "t")]) w0
     = (Normal (error "Unknown action: 1,,x"), w0)
  /\ handle answer_ok (VObj [("toString", num_of_Z 1)])
       (VObj [("table_name", VStr "t")]) w0
     = (Normal (error "Cannot convert object to primitive value"),
        Build_World nat 0%nat []
          ["DB operation failed: Cannot convert object to primitive value"]).
Proof.
  split; [| split].
  - apply (at_ answer_ok unknown_action_is_answered "t"); [reflexivity |].
    intros a [= <-]. simpl. intuition discriminate.
  - apply (at_ answer_ok unknown_action_is_answered "t"
             (VArr [num_of_Z 1; VNull; VStr "x"])); [reflexivity |].
    intros a [=].
  - apply (at_ answer_ok unknown_action_is_answered "t"
             (VObj [("toString", num_of_Z 1)])); [reflexivity |].
    intros a [=].
Defined.

Lemma post_rejects_witness :
  handle answer_ok (VStr "post")
    (VObj [("table_name", VStr "t"); ("c1", VStr "a");
           ("bogus", num_of_Z 1); ("zzz", num_of_Z 2)]) w0
  = (Normal (error "Invalid columns: bogus, zzz"), w0).
Proof.
  apply (proj1 (at_ answer_ok post_rejects_invalid_columns "t"
                  [("table_name", VStr "t"); ("c1", VStr "a");
                   ("bogus", num_of_Z 1); ("zzz", num_of_Z 2)] "bogus" w0
                  eq_refl
                  (or_intror (or_introl eq_refl))
                  ltac:(simpl; intuition discriminate))).
Defined.

Lemma post_inserts_witness :
  handle answer_ok (VStr "post")
    (VObj [("table_name", VStr "t"); ("c1", VStr "a");
           ("t1", VObj [("k", VNull)])]) w0
  = (Normal VNull,
     Build_World nat 1%nat
       [Run {| sql := "INSERT INTO t (c1,t1) VALUES (?,?)";
               binds := [VStr "a"; VStr "{}"] |}] []).
Proof.
  apply (proj1 (proj2 (at_ answer_ok post_inserts_once "t"
                  [("table_name", VStr "t"); ("c1", VStr "a");
                   ("t1", VObj [("k", VNull)])] w0 eq_refl
                  ltac:(simpl; intuition (subst; simpl; tauto))))
               (VObj [("changes", num_of_Z 1)]) 1%nat).
  reflexivity.
Defined.

Lemma delete_rejects_witness :
  handle answer_ok (VStr "delete")
    (VObj [("table_name", VStr "t"); ("colour", VStr "red")]) w0
  = (Normal (error "Invalid columns: colour"), w0).
Proof.
  apply (at_ answer_ok delete_rejects_invalid_columns "t"
           [("table_name", VStr "t"); ("colour", VStr "red")] "colour" w0
           eq_refl (or_introl eq_refl)).
  simpl. intuition discriminate.
Defined.

Lemma delete_all_witness :
  calls nat (snd (handle answer_ok (VStr "delete")
                    (VObj [("table_name", VStr "t")]) w0))
  = [Run {| sql := "DELETE FROM t"; binds := [] |}]
  /\ exists more,
       diagnostics nat (snd (handle answer_ok (VStr "delete")
                               (VObj [("table_name", VStr "t")]) w0))
       = "DELETE ALL from t" :: more.
Proof.
  exact (at_ answer_ok delete_without_filter_deletes_all "t"
           [("table_name", VStr "t")] w0 eq_refl eq_refl).
Defined.

Lemma delete_with_filters_witness :
  handle answer_ok (VStr "delete")
    (VObj [("table_name", VStr "t"); ("c1", VStr "a"); ("i1", num_of_Z 3)]) w0
  = (Normal (VObj [("deleted", num_of_Z 1)]),
     Build_World nat 1%nat
       [Run {| sql := "DELETE FROM t WHERE c1 = ? AND i1 = ?";
               binds := [VStr "a"; num_of_Z 3] |}] []).
Proof.
  apply (at_ answer_ok delete_with_filters "t"
           [("table_name", VStr "t"); ("c1", VStr "a"); ("i1", num_of_Z 3)]
           w0 (VObj [("changes", num_of_Z 1)]) 1%nat (num_of_Z 1) eq_refl);
    [simpl; intuition (subst; simpl; tauto) | discriminate
     | reflexivity | reflexivity].
Defined.

Lemma get_unknown_filter_witness :
  handle answer_ok (VStr "get")
    (VObj [("table_name", VStr "t"); ("c1", VStr "a");
           ("foo", num_of_Z 1); ("bar", num_of_Z 2);
           ("minId", num_of_Z 1); ("offset", num_of_Z 2)]) w0
  = (Normal (error "Invalid column: foo"), w0).
Proof.
  apply (at_ answer_ok get_rejects_unknown_filter "t"
           [("table_name", VStr "t"); ("c1", VStr "a");
            ("foo", num_of_Z 1); ("bar", num_of_Z 2);
            ("minId", num_of_Z 1); ("offset", num_of_Z 2)]
           ["c1"] "foo" ["bar"] w0 eq_refl eq_refl);
    [intros k' [<- | []]; simpl; tauto | simpl; intuition discriminate].
Defined.

Lemma get_conflict_witness :
  handle answer_ok (VStr "get")
    (VObj [("table_name", VStr "t");
           ("minId", num_of_Z 1); ("offset", num_of_Z 2)]) w0
  = (Normal (error "Cannot use both minId and offset"), w0).
Proof.
  apply (at_ answer_ok get_rejects_minId_with_offset "t"
           [("table_name", VStr "t");
            ("minId", num_of_Z 1); ("offset", num_of_Z 2)] w0 eq_refl);
    [intros k [] | reflexivity | reflexivity].
Defined.

Lemma get_keyset_witness :
  calls nat (snd (handle answer_ok (VStr "get")
                    (VObj [("table_name", VStr "t"); ("order", VStr "desc");
                           ("minId", num_of_Z 40); ("limit", num_of_Z 10)]) w0))
  = [All {| sql := "SELECT * FROM t WHERE id < ? ORDER BY id DESC LIMIT 10";
            binds := [num_of_Z 40] |}].
Proof.
  exact (at_ answer_ok get_keyset_bound "t"
           [("table_name", VStr "t"); ("order", VStr "desc");
            ("minId", num_of_Z 40); ("limit", num_of_Z 10)]
           (num_of_Z 40) w0 eq_refl eq_refl eq_refl eq_refl).
Defined.

Lemma get_interpolates_witness :
  calls nat (snd (handle answer_ok (VStr "get")
                    (VObj [("table_name", VStr "t"); ("c2", VStr "x");
                           ("orderby", VStr "name; DROP TABLE t")]) w0))
  = [All {| sql := "SELECT * FROM t WHERE c2 = ? ORDER BY id ASC LIMIT 100";
            binds := [VStr "x"] |}].
Proof.
  destruct (at_ answer_ok get_interpolates_only_columns "t"
              [("table_name", VStr "t"); ("c2", VStr "x");
               ("orderby", VStr "name; DROP TABLE t")] w0 eq_refl)
    as [Hnone | [Hcall _]].
  - discriminate Hnone.
  - exact Hcall.
Defined.

Lemma insert_placeholders_witness :
  exists s,
    calls nat (snd (handle answer_ok (VStr "post")
                      (VObj [("table_name", VStr "t"); ("c1", VStr "a");
                             ("i1", num_of_Z 1)]) w0))
    = [Run s]
    /\ qmarks (sql s) = 2%nat /\ List.length (binds s) = 2%nat.
Proof.
  destruct (proj1 (at_ answer_ok insert_placeholders_match_binds "t" w0 eq_refl)
              [("table_name", VStr "t"); ("c1", VStr "a"); ("i1", num_of_Z 1)]
              eq_refl
              ltac:(simpl; intuition (subst; simpl; tauto)))
    as (s & Hcall & Hq).
  exists s. split; [exact Hcall |].
  injection Hcall as <-. split; reflexivity.
Defined.

Lemma put_placeholders_witness :
  exists s,
    calls nat (snd (handle answer_ok (VStr "put")
                      (VObj [("table_name", VStr "t"); ("id", num_of_Z 7);
                             ("c2", VStr "x"); ("i1", num_of_Z 1)]) w0))
    = [Run s]
    /\ qmarks (sql s) = List.length (binds s)
    /\ List.length (binds s) = 3%nat
    /\ includes (sql s) "v2 = CURRENT_TIMESTAMP WHERE " = true.
Proof.
  exact (at_ answer_ok put_placeholders_match_binds "t"
           [("table_name", VStr "t"); ("id", num_of_Z 7);
            ("c2", VStr "x"); ("i1", num_of_Z 1)] w0
           eq_refl eq_refl eq_refl
           ltac:(simpl; intuition (subst; simpl; tauto))).
Defined.

Lemma filter_placeholders_witness :
  (exists s,
      calls nat (snd (handle answer_ok (VStr "delete")
                        (VObj [("table_name", VStr "t"); ("c1", VStr "a")]) w0))
      = [Run s] /\ qmarks (sql s) = List.length (binds s))
  /\ (calls nat (snd (handle answer_ok (VStr "get")
                        (VObj [("table_name", VStr "t"); ("c1", VStr "a")]) w0))
      = []
      \/ exists s,
           calls nat (snd (handle answer_ok (VStr "get")
                             (VObj [("table_name", VStr "t"); ("c1", VStr "a")])
                             w0))
           = [All s] /\ qmarks (sql s) = List.length (binds s)).
Proof.
  destruct (at_ answer_ok filter_placeholders_match_binds "t"
              [("table_name", VStr "t"); ("c1", VStr "a")] w0
              eq_refl eq_refl) as [Hdel Hget].
  split; [| exact Hget].
  apply Hdel. simpl; intuition (subst; simpl; tauto).
Defined.

Lemma create_index_witness :
  handle answer_ok (VStr "create_index")
    (VObj [("table_name", VStr "t"); ("column", VStr "name")]) w0
  = (Normal (error "Invalid column: name"), w0)
  /\ calls nat (snd (handle answer_ok (VStr "create_index")
                       (VObj [("table_name", VStr "t"); ("column", VStr "c2");
                              ("unique", VBool true)]) w0))
     = [Run (prepare "CREATE UNIQUE INDEX IF NOT EXISTS idx_t_c2 ON t (c2)")].
Proof.
  split.
  - apply (proj1 (at_ answer_ok create_index_validates_column "t"
                    (VObj [("table_name", VStr "t"); ("column", VStr "name")])
                    (VStr "name") VUndefined w0 eq_refl eq_refl eq_refl)).
    intros c [= <-]. simpl. intuition discriminate.
  - apply (proj2 (at_ answer_ok create_index_validates_column "t"
                    (VObj [("table_name", VStr "t"); ("column", VStr "c2");
                           ("unique", VBool true)])
                    (VStr "c2") (VBool true) w0 eq_refl eq_refl eq_refl)
                 "c2" eq_refl).
    simpl; tauto.
Defined.

Lemma index_names_witness :
  calls nat (snd (handle answer_ok (VStr "drop_index")
                    (VObj [("table_name", VStr "t"); ("column", VStr "c1")]) w0))
  = [Run (prepare "DROP INDEX IF EXISTS idx_t_c1")]
  /\ map sql (tl (createTableStatements "t" false))
     = ["CREATE INDEX IF NOT EXISTS idx_t_c1 ON t(c1)";
        "CREATE INDEX IF NOT EXISTS idx_t_v2 ON t(v2)"].
Proof.
  destruct (at_ answer_ok index_names_agree "t" "c1"
              (VObj [("table_name", VStr "t"); ("column", VStr "c1")]) w0
              eq_refl eq_refl ltac:(simpl; tauto)) as (Hdrop & _ & Hnames).
  split; [exact Hdrop | exact Hnames].
Defined.

Lemma drop_index_witness :
  handle answer_ok (VStr "drop_index") (VObj [("table_name", VStr "t")]) w0
  = (Normal (error "Missing column"), w0)
  /\ calls nat (snd (handle answer_ok (VStr "drop_index")
                       (VObj [("table_name", VStr "t");
                              ("column", VStr "anything")]) w0))
     = [Run (prepare "DROP INDEX IF EXISTS idx_t_anything")].
Proof.
  split.
  - exact (proj1 (at_ answer_ok drop_index_checks_presence_only "t"
                    (VObj [("table_name", VStr "t")]) VUndefined w0
                    eq_refl eq_refl) eq_refl).
  - apply (proj2 (at_ answer_ok drop_index_checks_presence_only "t"
                    (VObj [("table_name", VStr "t");
                           ("column", VStr "anything")])
                    (VStr "anything") w0 eq_refl eq_refl)
                 "anything" eq_refl).
    discriminate.
Defined.

Lemma exec_runs_witness :
  calls nat (snd (handle (answer_error "no such table: T") (VStr "exec")
                    (VObj [("table_name", VStr "t");
                           ("query", VStr " SELECT * FROM T WHERE id = ? ");
                           ("params", VArr [num_of_Z 1])]) w0))
  = [All {| sql := " SELECT * FROM T WHERE id = ? "; binds := [num_of_Z 1] |}]
  /\ diagnostics nat
       (snd (handle (answer_error "no such table: T") (VStr "exec")
               (VObj [("table_name", VStr "t");
                      ("query", VStr " SELECT * FROM T WHERE id = ? ");
                      ("params", VArr [num_of_Z 1])]) w0))
     = []
  /\ fst (handle (answer_error "no such table: T") (VStr "exec")
            (VObj [("table_name", VStr "t");
                   ("query", VStr " SELECT * FROM T WHERE id = ? ");
                   ("params", VArr [num_of_Z 1])]) w0)
     = Normal (error "SQL Execution Error: no such table: T").
Proof.
  destruct (at_ (answer_error "no such table: T") exec_runs_query_verbatim "t"
              (VObj [("table_name", VStr "t");
                     ("query", VStr " SELECT * FROM T WHERE id = ? ");
                     ("params", VArr [num_of_Z 1])])
              " SELECT * FROM T WHERE id = ? " (VArr [num_of_Z 1]) w0
              eq_refl eq_refl eq_refl ltac:(discriminate) eq_refl eq_refl)
    as (Hcall & Hdiag & Herr).
  split; [exact Hcall | split; [exact Hdiag |]].
  exact (Herr (StoreError "no such table: T") 1%nat eq_refl).
Defined.

Lemma init_system_witness :
  handle answer_ok (VStr "init_system") (VObj [("table_name", VStr "anything")])
    w0
  = (Normal (error "DB_VERSION is not defined"),
     Build_World nat 1%nat
       [Batch (createTableStatements "__DA_SYSTEM_CONFIG" true)]
       ["DB operation failed: DB_VERSION is not defined"]).
Proof.
  exact (proj2 (proj2 (at_ answer_ok init_system_never_seeds "anything"
                         (VObj [("table_name", VStr "anything")]) w0 eq_refl))).
Defined.

Lemma normalize_witness :
  exists kvs',
    normalizeJsonColumns demo_stringify
      (VObj [("c1", VStr "a"); ("t1", VArr [num_of_Z 1]); ("t2", VStr "plain")])
    = Normal (VObj kvs')
    /\ lookup "c1" kvs' = VStr "a"
    /\ is_object (lookup "t1" kvs') = false.
Proof.
  destruct (normalizeJsonColumns_makes_text demo_stringify
              [("c1", VStr "a"); ("t1", VArr [num_of_Z 1]); ("t2", VStr "plain")])
    as (kvs' & Hn & _ & Hother & Htext & _).
  exists kvs'. split; [exact Hn | split].
  - exact (Hother "c1" ltac:(discriminate) ltac:(discriminate) ltac:(discriminate)).
  - apply Htext. simpl; tauto.
Defined.

Lemma update_c1_outcomes_witness :
  handle answer_ok (VStr "update_c1")
    (VObj [("table_name", VStr "t"); ("id", num_of_Z 3); ("new_c1", VStr "k")])
    w0
  = (Normal (VObj [("renamed", VBool true)]),
     Build_World nat 1%nat
       [Run {| sql := "UPDATE t SET c1 = ?, v2 = CURRENT_TIMESTAMP WHERE id = ?";
               binds := [VStr "k"; num_of_Z 3] |}] [])
  /\ fst (handle answer_no_row (VStr "update_c1")
            (VObj [("table_name", VStr "t"); ("id", num_of_Z 3);
                   ("new_c1", VStr "k")]) w0)
     = Normal (error "Record not found").
Proof.
  split.
  - exact (at_ answer_ok update_c1_outcomes "t"
             (VObj [("table_name", VStr "t"); ("id", num_of_Z 3);
                    ("new_c1", VStr "k")])
             (num_of_Z 3) (VStr "k") w0 (VObj [("changes", num_of_Z 1)])
             1%nat (num_of_Z 1)
             eq_refl eq_refl eq_refl eq_refl eq_refl eq_refl eq_refl).
  - rewrite (at_ answer_no_row update_c1_outcomes "t"
               (VObj [("table_name", VStr "t"); ("id", num_of_Z 3);
                      ("new_c1", VStr "k")])
               (num_of_Z 3) (VStr "k") w0 (VObj [("changes", num_of_Z 0)])
               1%nat (num_of_Z 0)
               eq_refl eq_refl eq_refl eq_refl eq_refl eq_refl eq_refl).
    reflexivity.
Defined.

Lemma batch_post_all_or_nothing_witness :
  handle answer_ok (VStr "batch_post")
    (VObj [("table_name", VStr "t"); ("data", VObj [("c1", VStr "a")])]) w0
  = (Normal (error "Payload 'data' must be an array"), w0)
  /\ exists msg,
       fst (handle answer_ok (VStr "batch_post")
              (VObj [("table_name", VStr "t");
                     ("data", VArr [VObj [("c1", VStr "a")]; VNull])]) w0)
       = Normal (error msg)
       /\ calls nat (snd (handle answer_ok (VStr "batch_post")
                            (VObj [("table_name", VStr "t");
                                   ("data", VArr [VObj [("c1", VStr "a")]; VNull])])
                            w0))
          = [].
Proof.
  split.
  - apply (proj1 (at_ answer_ok batch_post_builds_all_or_nothing "t"
                    (VObj [("table_name", VStr "t");
                           ("data", VObj [("c1", VStr "a")])])
                    (VObj [("c1", VStr "a")]) w0 eq_refl eq_refl)).
    discriminate.
  - apply (proj2 (at_ answer_ok batch_post_builds_all_or_nothing "t"
                    (VObj [("table_name", VStr "t");
                           ("data", VArr [VObj [("c1", VStr "a")]; VNull])])
                    (VArr [VObj [("c1", VStr "a")]; VNull]) w0 eq_refl eq_refl)
                 [VObj [("c1", VStr "a")]; VNull] eq_refl).
    simpl; tauto.
Defined.


Lemma gated_requests_witness :
  onRequest nat (scripted answer_ok) demo_stringify demo_number "GET"
    {| authorization := Some "Bearer s3cret"; json := None |} env0 w0
  = (Normal (PlainText 405 "Method Not Allowed"), w0)
  /\ onRequest nat (scripted answer_ok) demo_stringify demo_number "POST"
       {| authorization := Some "Bearer s3cret";
          json := Some (VObj [("request_id", VStr "r-7");
                              ("action", VStr "drop_table")]) |} env0 w0
     = (Normal (Json (nack (VStr "r-7") "da-cloud-cfd1-rack/default"
                           "INVALID_FIELD" (VStr "Missing payload"))), w0).
Proof.
  split.
  - apply (proj1 (at_ answer_ok gated_requests_leave_the_world "GET"
                    {| authorization := Some "Bearer s3cret"; json := None |}
                    env0 w0)).
    discriminate.
  - exact (proj2 (proj2 (proj2
             (at_ answer_ok gated_requests_leave_the_world "POST"
                {| authorization := Some "Bearer s3cret";
                   json := Some (VObj [("request_id", VStr "r-7");
                                       ("action", VStr "drop_table")]) |}
                env0 w0)))
             (VObj [("request_id", VStr "r-7"); ("action", VStr "drop_table")])
             VUndefined eq_refl eq_refl eq_refl eq_refl).
Defined.

Lemma envelope_status_witness :
  serve answer_ok
    {| authorization := Some "Bearer s3cret";
       json := Some (VObj [("action", VStr "drop_table");
                           ("payload", VObj [("table_name", VStr "t")])]) |}
    env0 w0
  = (Normal (ack (VStr "unknown") "da-cloud-cfd1-rack/default"
               (VObj [("message", VStr "Table t has been deleted.")])),
     Build_World nat 1%nat [Run (prepare "DROP TABLE IF EXISTS t")] [])
  /\ get_prop
       (body (ack (VStr "unknown") "da-cloud-cfd1-rack/default"
                (VObj [("message", VStr "Table t has been deleted.")])))
       "source_id"
     = Normal (VStr "da-cloud-cfd1-rack/default").
Proof.
  split; [reflexivity |].
  exact (proj1 (at_ answer_ok envelope_status_matches_type
                  {| authorization := Some "Bearer s3cret";
                     json := Some (VObj [("action", VStr "drop_table");
                                         ("payload",
                                          VObj [("table_name", VStr "t")])]) |}
                  env0 w0
                  (ack (VStr "unknown") "da-cloud-cfd1-rack/default"
                     (VObj [("message", VStr "Table t has been deleted.")]))
                  (Build_World nat 1%nat
                     [Run (prepare "DROP TABLE IF EXISTS t")] [])
                  eq_refl)).
Defined.

Lemma envelope_of_answer_witness :
  serve answer_ok
    {| authorization := Some "Bearer s3cret";
       json := Some (VObj [("request_id", VStr "r-9"); ("action", VStr "post");
                           ("payload", VObj [("table_name", VStr "t");
                                             ("c1", VStr "a")])]) |}
    env0 w0
  = (Normal (ack (VStr "r-9") "da-cloud-cfd1-rack/default" (VObj [])),
     Build_World nat 1%nat
       [Run {| sql := "INSERT INTO t (c1) VALUES (?)"; binds := [VStr "a"] |}] [])
  /\ serve (answer_error "")
       {| authorization := Some "Bearer s3cret";
          json := Some (VObj [("request_id", VStr "r-9");
                              ("action", VStr "drop_table");
                              ("payload", VObj [("table_name", VStr "t")])]) |}
       env0 w0
     = (Normal (ack (VStr "r-9") "da-cloud-cfd1-rack/default" (error "")),
        Build_World nat 1%nat [Run (prepare "DROP TABLE IF EXISTS t")]
          ["DB operation failed: "]).
Proof.
  split.
  - exact (proj1 (proj2
      (at_ answer_ok envelope_of_dispatcher_answer
         {| authorization := Some "Bearer s3cret";
            json := Some (VObj [("request_id", VStr "r-9");
                                ("action", VStr "post");
                                ("payload", VObj [("table_name", VStr "t");
                                                  ("c1", VStr "a")])]) |}
         env0
         (VObj [("request_id", VStr "r-9"); ("action", VStr "post");
                ("payload", VObj [("table_name", VStr "t"); ("c1", VStr "a")])])
         (VObj [("table_name", VStr "t"); ("c1", VStr "a")])
         (VStr "post") w0 VNull _
         eq_refl eq_refl eq_refl eq_refl eq_refl eq_refl)) eq_refl).
  - exact (proj2 (proj2
      (at_ (answer_error "") envelope_of_dispatcher_answer
         {| authorization := Some "Bearer s3cret";
            json := Some (VObj [("request_id", VStr "r-9");
                                ("action", VStr "drop_table");
                                ("payload", VObj [("table_name", VStr "t")])]) |}
         env0
         (VObj [("request_id", VStr "r-9"); ("action", VStr "drop_table");
                ("payload", VObj [("table_name", VStr "t")])])
         (VObj [("table_name", VStr "t")])
         (VStr "drop_table") w0 (error "") _
         eq_refl eq_refl eq_refl eq_refl eq_refl eq_refl)) eq_refl).
Defined.

Lemma put_validates_witness :
  handle answer_ok (VStr "put")
    (VObj [("table_name", VStr "t"); ("c2", VStr "x")]) w0
  = (Normal (error "Missing 'id' or 'c1' for update"), w0)
  /\ handle answer_ok (VStr "put")
       (VObj [("table_name", VStr "t"); ("id", num_of_Z 1);
              ("colour", VStr "red")]) w0
     = (Normal (error "Invalid columns: colour"), w0).
Proof.
  split.
  - exact (proj1 (at_ answer_ok put_validates_before_update "t"
                    [("table_name", VStr "t"); ("c2", VStr "x")] w0 eq_refl)
                 eq_refl eq_refl).
  - apply (proj2 (at_ answer_ok put_validates_before_update "t"
                    [("table_name", VStr "t"); ("id", num_of_Z 1);
                     ("colour", VStr "red")] w0 eq_refl)
                 "colour" eq_refl (or_introl eq_refl)).
    simpl. intuition discriminate.
Defined.

End Api.
